(** * Order engine of the storefront backend

    A shallow embedding of the order handlers of the Go backend
    (package [handlers]: [CreateOrder], [UpdateOrderStatus], [CancelOrder]
    and [isValidStatusTransition]) over the GORM models of package
    [models] ([Product], [Order], [OrderItem], [OrderStatus]).  Around
    them: the paging of [GetOrders] and [GetProducts], the product
    handlers that write to the stock ([UpdateStock], [DeleteProduct]),
    and the cart of the frontend, whose lines become the items of a
    request.

    Modelling conventions.
    - The relational store is a record of two tables, each a finite map
      from primary key to row.  Rows whose [DeletedAt] is set are invisible
      to every statement the handlers issue (GORM adds
      [deleted_at IS NULL]), so a table holds the live rows only.
    - [tx := database.DB.Begin()] hands the handler a working copy of the
      store; [tx.Rollback()] answers with the store as it was, and
      [tx.Commit()] with the working copy.
    - Go's [int] is a 64-bit two's-complement integer: arithmetic done in
      Go wraps ([wrap_int]); arithmetic done by the store inside an
      [UPDATE] ([gorm.Expr]) is range checked and fails the statement.
    - Go's [float64] is IEEE 754 binary64, i.e. Rocq's primitive [float].
      A [float64] written to the [decimal(10,2)] column [orders.total] is
      rounded to hundredths and refused when it does not fit
      ([decimal_10_2]); the row read back holds the rounded value.  The
      price of an item comes from a [decimal(10,2)] column and goes to
      one: it is kept as it is.
    - A handler is given the request as [ShouldBindJSON] has bound it;
      the fields of a bound request are values of Go's [int] and [uint]
      ([bindable]).
    - Calls of [CreateOrder] that overlap run statement by statement in
      the order a schedule gives ([run]).  A statement sees the rows
      committed so far and the rows its own transaction has written
      (read committed, the default of the store; the handler sets no
      isolation level and takes no lock).  An [UPDATE] of a row that
      another open transaction has written waits for it; a deadlock is
      two calls that wait for ever.  [tx.Create] and [tx.Commit] are
      taken as one step.
    - Statements fail only for the reasons written next to them; network
      and commit failures are left out, and the user a request names is
      taken to exist.  Time stamps, the [User] and [Product] associations
      of a row and the keys of order items are not modelled. *)

From Stdlib Require Import ZArith Floats.
From stdpp Require Import gmap strings list fin_maps.

Local Open Scope string_scope.
Local Open Scope list_scope.
Local Open Scope Z_scope.

(** ** Machine integers and floats *)

Definition int_min : Z := - 2 ^ 63.
Definition int_max : Z := 2 ^ 63 - 1.

(** [z] is a value of Go's [int]. *)
Definition is_int (z : Z) : Prop := int_min ≤ z ≤ int_max.

Definition is_intb (z : Z) : bool := (int_min <=? z) && (z <=? int_max).

(** Result of an [int] operation whose mathematical value is [z]. *)
Definition wrap_int (z : Z) : Z := (z + 2 ^ 63) mod 2 ^ 64 - 2 ^ 63.

(** The conversion [float64(n)] of an [int]. *)
Definition float64 (n : Z) : float :=
  if n =? int_min then PrimFloat.opp (PrimFloat.mul (PrimFloat.of_uint63 (Uint63.of_Z (2 ^ 62))) 2%float)
  else if n <? 0 then PrimFloat.opp (PrimFloat.of_uint63 (Uint63.of_Z (- n)))
  else PrimFloat.of_uint63 (Uint63.of_Z n).

(** The number of hundredths nearest to a finite [float64] (ties away
    from zero); the value of a finite float is [m * 2^e].  It is the
    value of the float that is rounded here; the store rounds the
    decimal numeral the driver sends for it. *)
Definition hundredths (x : float) : option Z :=
  match Prim2SF x with
  | S754_zero _ => Some 0
  | S754_finite s m e =>
      let n := 100 * Z.pos m in
      let c := if 0 <=? e then n * 2 ^ e else (2 * n + 2 ^ (- e)) / (2 * 2 ^ (- e)) in
      Some (if s then - c else c)
  | S754_infinity _ => None
  | S754_nan => None
  end.

(** A [float64] written to a [decimal(10,2)] column and read back: the
    column holds numbers of at most eight digits before and two after
    the point; a value that rounds to more is refused. *)
Definition decimal_10_2 (x : float) : option float :=
  match hundredths x with
  | Some c =>
      if Z.abs c <? 10 ^ 10 then Some (PrimFloat.div (float64 c) 100%float) else None
  | None => None
  end.

(** ** package models *)

Definition OrderStatus : Type := string.

Definition OrderStatusPending : OrderStatus := "pending".
Definition OrderStatusPaid : OrderStatus := "paid".
Definition OrderStatusShipped : OrderStatus := "shipped".
Definition OrderStatusDelivered : OrderStatus := "delivered".
Definition OrderStatusCancelled : OrderStatus := "cancelled".

Record Product : Type := mkProduct {
  Product_Name : string;
  Product_Price : float;
  Product_Stock : Z
}.

Record OrderItem : Type := mkOrderItem {
  Item_ProductID : N;
  Item_Quantity : Z;
  Item_Price : float
}.

Record Order : Type := mkOrder {
  Order_ID : N;
  Order_UserID : N;
  Order_Status : OrderStatus;
  Order_Total : float;
  Order_Items : list OrderItem
}.

Definition set_Stock (p : Product) (s : Z) : Product :=
  {| Product_Name := Product_Name p; Product_Price := Product_Price p; Product_Stock := s |}.

Definition set_Price (it : OrderItem) (x : float) : OrderItem :=
  {| Item_ProductID := Item_ProductID it; Item_Quantity := Item_Quantity it; Item_Price := x |}.

Definition set_Status (o : Order) (s : OrderStatus) : Order :=
  {| Order_ID := Order_ID o; Order_UserID := Order_UserID o; Order_Status := s;
     Order_Total := Order_Total o; Order_Items := Order_Items o |}.

(** ** The store *)

Record DB : Type := mkDB {
  products : gmap N Product;
  orders : gmap N Order
}.

Definition set_products (db : DB) (ps : gmap N Product) : DB :=
  {| products := ps; orders := orders db |}.

Definition set_orders (db : DB) (os : gmap N Order) : DB :=
  {| products := products db; orders := os |}.

(** ** HTTP responses *)

Inductive JValue : Type :=
| JStr (s : string)
| JInt (z : Z).

(** What a handler writes: [c.JSON(code, gin.H{...})], [c.JSON(code, order)]
    or [c.Status(code)]. *)
Inductive Body : Type :=
| gin_H (fields : list (string * JValue))
| JOrder (o : Order)
| NoBody.

Record Response : Type := mkResponse {
  code : Z;
  body : Body
}.

Definition StatusOK : Z := 200.
Definition StatusCreated : Z := 201.
Definition StatusBadRequest : Z := 400.
Definition StatusNotFound : Z := 404.
Definition StatusInternalServerError : Z := 500.

Definition JSON (c : Z) (b : Body) : Response := {| code := c; body := b |}.
Definition Status (c : Z) : Response := {| code := c; body := NoBody |}.

(** A handler step either goes on with a value or has already answered
    the request (every such exit of the handlers rolls the transaction
    back first). *)
Inductive Outcome (A : Type) : Type :=
| Done (a : A)
| Abort (r : Response).
Arguments Done {A} a.
Arguments Abort {A} r.

Global Instance Outcome_bind : MBind Outcome := λ A B k m,
  match m with
  | Done a => k a
  | Abort r => Abort r
  end.

(** ** handlers.CreateOrder *)

(** The body of the loop over [order.Items]: look the product up, check
    the stock, write the decremented stock.  Returns the working copy
    and the product as read (before the write). *)
Definition reserve (tx : DB) (item : OrderItem) : Outcome (DB * Product) :=
  match products tx !! Item_ProductID item with
  | None =>
      Abort (JSON StatusNotFound
        (gin_H [("error", JStr "Product not found");
            ("product_id", JInt (Z.of_N (Item_ProductID item)))]))
  | Some product =>
      if Product_Stock product <? Item_Quantity item then
        Abort (JSON StatusBadRequest
          (gin_H [("error", JStr "Insufficient stock");
              ("product_id", JInt (Z.of_N (Item_ProductID item)));
              ("available", JInt (Product_Stock product));
              ("requested", JInt (Item_Quantity item))]))
      else
        Done (set_products tx
                (<[Item_ProductID item :=
                     set_Stock product (wrap_int (Product_Stock product - Item_Quantity item))]>
                   (products tx)),
              product)
  end.

(** [for i, item := range order.Items { ... }]: threads the working copy
    and the running [total]; gives back the items with their price set
    from the product. *)
Fixpoint reserve_items (tx : DB) (items : list OrderItem) (total : float)
  : Outcome (DB * list OrderItem * float) :=
  match items with
  | [] => Done (tx, [], total)
  | item :: rest =>
      '(tx1, product) ← reserve tx item;
      '(tx2, rest', total') ←
        reserve_items tx1 rest
          (PrimFloat.add total (PrimFloat.mul (Product_Price product) (float64 (Item_Quantity item))));
      Done (tx2, set_Price item (Product_Price product) :: rest', total')
  end.

(** The next value of the primary key sequence of [orders]: one past the
    largest key in use. *)
Definition next_order_id (os : gmap N Order) : N :=
  N.succ (map_fold (λ k _ acc, N.max k acc) 0%N os).

(** [tx.Create(&order)]: the total goes into its [decimal(10,2)]
    column; a zero [ID] is filled in by the store, a given one is kept
    and must be unused.  Gives back the row as it is read again. *)
Definition create_order (tx : DB) (order : Order) : option (DB * Order) :=
  match decimal_10_2 (Order_Total order) with
  | None => None
  | Some total =>
      if (Order_ID order =? 0)%N then
        let o := {| Order_ID := next_order_id (orders tx); Order_UserID := Order_UserID order;
                    Order_Status := Order_Status order; Order_Total := total;
                    Order_Items := Order_Items order |} in
        Some (set_orders tx (<[Order_ID o := o]> (orders tx)), o)
      else
        match orders tx !! Order_ID order with
        | Some _ => None
        | None =>
            let o := {| Order_ID := Order_ID order; Order_UserID := Order_UserID order;
                        Order_Status := Order_Status order; Order_Total := total;
                        Order_Items := Order_Items order |} in
            Some (set_orders tx (<[Order_ID o := o]> (orders tx)), o)
        end
  end.

(** [order.Items[i].Price = product.Price] for every [i], then
    [order.Total = total] and [order.Status = models.OrderStatusPending]:
    the order as it is handed to [tx.Create]. *)
Definition with_server_fields (order : Order) (items : list OrderItem) (total : float) : Order :=
  {| Order_ID := Order_ID order; Order_UserID := Order_UserID order;
     Order_Status := OrderStatusPending; Order_Total := total; Order_Items := items |}.

(** The handler past [ShouldBindJSON]: [order] is the bound request.  The
    answer to a created order is the row as [tx.Create] has stored it,
    which is what the reload before [c.JSON] reads. *)
Definition CreateOrder (db : DB) (order : Order) : DB * Response :=
  match reserve_items db (Order_Items order) 0%float with
  | Abort r => (db, r)
  | Done (tx, items, total) =>
      match create_order tx (with_server_fields order items total) with
      | None => (db, JSON StatusInternalServerError (gin_H [("error", JStr "Failed to create order")]))
      | Some (tx', o) => (tx', JSON StatusCreated (JOrder o))
      end
  end.

(** ** handlers.isValidStatusTransition *)

Definition validTransitions : gmap OrderStatus (list OrderStatus) :=
  <[OrderStatusPending := [OrderStatusPaid; OrderStatusCancelled]]>
  (<[OrderStatusPaid := [OrderStatusShipped; OrderStatusCancelled]]>
  (<[OrderStatusShipped := [OrderStatusDelivered; OrderStatusCancelled]]>
  (<[OrderStatusDelivered := []]>
  (<[OrderStatusCancelled := []]> ∅)))).

Definition isValidStatusTransition (current new : OrderStatus) : bool :=
  existsb (λ validStatus, String.eqb validStatus new)
          (default [] (validTransitions !! current)).

(** ** handlers.UpdateOrderStatus *)

(** [status] is the [status] field of the request body; the binding tag
    [required] refuses the empty string. *)
Definition UpdateOrderStatus (db : DB) (id : N) (status : OrderStatus) : DB * Response :=
  if String.eqb status "" then
    (db, JSON StatusBadRequest (gin_H [("error", JStr "Invalid request body")]))
  else
    match orders db !! id with
    | None => (db, JSON StatusNotFound (gin_H [("error", JStr "Order not found")]))
    | Some order =>
        if negb (isValidStatusTransition (Order_Status order) status) then
          (db, JSON StatusBadRequest (gin_H [("error", JStr "Invalid status transition")]))
        else
          (set_orders db (<[id := set_Status order status]> (orders db)), Status StatusOK)
    end.

(** ** handlers.CancelOrder *)

(** [UPDATE products SET stock = stock + ? WHERE id = ?]: no row, no
    change and no error; the statement fails when the sum leaves the
    range of the column. *)
Definition restore (ps : gmap N Product) (item : OrderItem) : option (gmap N Product) :=
  match ps !! Item_ProductID item with
  | None => Some ps
  | Some p =>
      let s := Product_Stock p + Item_Quantity item in
      if is_intb s then Some (<[Item_ProductID item := set_Stock p s]> ps) else None
  end.

(** [for _, item := range order.Items { ... }] *)
Fixpoint restore_items (ps : gmap N Product) (items : list OrderItem) : option (gmap N Product) :=
  match items with
  | [] => Some ps
  | item :: rest =>
      match restore ps item with
      | None => None
      | Some ps1 => restore_items ps1 rest
      end
  end.

Definition CancelOrder (db : DB) (id : N) : DB * Response :=
  match orders db !! id with
  | None => (db, JSON StatusNotFound (gin_H [("error", JStr "Order not found")]))
  | Some order =>
      if String.eqb (Order_Status order) OrderStatusCancelled then
        (db, JSON StatusBadRequest (gin_H [("error", JStr "Order is already cancelled")]))
      else if String.eqb (Order_Status order) OrderStatusDelivered then
        (db, JSON StatusBadRequest (gin_H [("error", JStr "Cannot cancel delivered order")]))
      else
        match restore_items (products db) (Order_Items order) with
        | None => (db, JSON StatusInternalServerError (gin_H [("error", JStr "Failed to restore stock")]))
        | Some ps =>
            ({| products := ps;
                orders := <[id := set_Status order OrderStatusCancelled]> (orders db) |},
             Status StatusOK)
        end
  end.

(** ** The transition table as the specification writes it *)

(** Edges [(current, next)] of the order state machine:
    pending → paid, cancelled; paid → shipped, cancelled;
    shipped → delivered, cancelled; delivered and cancelled have none. *)
Definition transition_table : list (OrderStatus * OrderStatus) :=
  [ (OrderStatusPending, OrderStatusPaid); (OrderStatusPending, OrderStatusCancelled);
    (OrderStatusPaid, OrderStatusShipped); (OrderStatusPaid, OrderStatusCancelled);
    (OrderStatusShipped, OrderStatusDelivered); (OrderStatusShipped, OrderStatusCancelled) ].

Definition allowed (current new : OrderStatus) : Prop := In (current, new) transition_table.

(** ** Quantities the properties speak about *)

Definition line_total (it : OrderItem) : float :=
  PrimFloat.mul (Item_Price it) (float64 (Item_Quantity it)).

(** The sum of [price * quantity] over the items, added up from the left
    starting at [t0], as the loop does ([float64] addition is not
    associative, so the order of the additions is part of the value). *)
Definition items_total (t0 : float) (items : list OrderItem) : float :=
  fold_left (λ acc it, PrimFloat.add acc (line_total it)) items t0.

(** [n] is a value of Go's [uint]. *)
Definition is_uint (n : N) : Prop := (n < 2 ^ 64)%N.

(** What [ShouldBindJSON] hands over: the keys are values of [uint] and
    the quantities values of [int] (a request with any other number is
    answered 400 "Invalid request body" before the handler looks at the
    store). *)
Definition bindable (order : Order) : Prop :=
  is_uint (Order_ID order) ∧ is_uint (Order_UserID order) ∧
  Forall (λ it, is_uint (Item_ProductID it) ∧ is_int (Item_Quantity it)) (Order_Items order).

(** An item at the price of its product in [ps]. *)
Definition quoted (ps : gmap N Product) (it : OrderItem) : OrderItem :=
  match ps !! Item_ProductID it with
  | Some p => set_Price it (Product_Price p)
  | None => it
  end.

(** The total of the items at the prices of [ps]. *)
Definition quoted_total (ps : gmap N Product) (items : list OrderItem) : float :=
  items_total 0%float (map (quoted ps) items).

(** The sum of [price * quantity] over the items in exact arithmetic,
    in hundredths. *)
Definition items_hundredths (items : list OrderItem) : option Z :=
  foldr (λ it acc, c ← hundredths (Item_Price it); t ← acc; Some (c * Item_Quantity it + t))
        (Some 0) items.

(** The part of an item the client decides. *)
Definition requested (it : OrderItem) : N * Z := (Item_ProductID it, Item_Quantity it).

(** Every stock is a non-negative [int]. *)
Definition stock_ok (ps : gmap N Product) : Prop :=
  ∀ k p, ps !! k = Some p → 0 ≤ Product_Stock p ≤ int_max.

Definition positive_items (items : list OrderItem) : Prop :=
  Forall (λ it, 0 < Item_Quantity it) items.

(** The quantity the items of an order take from product [k]. *)
Fixpoint debited (items : list OrderItem) (k : N) : Z :=
  match items with
  | [] => 0
  | it :: rest => (if decide (Item_ProductID it = k) then Item_Quantity it else 0) + debited rest k
  end.

Definition add_Stock (d : Z) (p : Product) : Product := set_Stock p (Product_Stock p + d).

(** ** What happens to the store later *)




(** ** handlers.GetOrders and database.GetOrdersWithDetails: paging *)

(** [page] and [limit] are what [strconv.Atoi] made of the query
    parameters (any [int]: 0 for text that is no number). *)
Definition clamp_page (page : Z) : Z := if page <? 1 then 1 else page.

Definition clamp_limit (limit : Z) : Z :=
  if (limit <? 1) || (100 <? limit) then 10 else limit.

(** [(total + int64(limit) - 1) / int64(limit)]; Go's division truncates. *)
Definition total_pages (total limit : Z) : Z :=
  wrap_int (Z.quot (wrap_int (wrap_int (total + limit) - 1)) limit).

(** The [pagination] object of the answer, from the raw query parameters
    and the row count. *)
Definition pagination (page limit total : Z) : list (string * JValue) :=
  [("current_page", JInt (clamp_page page));
   ("total_items", JInt total);
   ("items_per_page", JInt (clamp_limit limit));
   ("total_pages", JInt (total_pages total (clamp_limit limit)))].

(** [(page-1)*limit], the argument of [OFFSET]. *)
Definition offset (page limit : Z) : Z := wrap_int (wrap_int (page - 1) * limit).

(** What [OFFSET ? LIMIT ?] keeps of the ordered result [rows] of the
    query; the store refuses a negative offset or limit. *)
Definition page_rows {A : Type} (rows : list A) (page limit : Z) : option (list A) :=
  if (offset page limit <? 0) || (limit <? 0) then None
  else Some (take (Z.to_nat limit) (drop (Z.to_nat (offset page limit)) rows)).

(** ** handlers.UpdateStock and handlers.DeleteProduct *)

Definition StatusNoContent : Z := 204.

(** [quantity] is the number in the [quantity] field of the request
    body; the binding refuses one that is no [int], and the tag
    [required] refuses the zero value. *)
Definition UpdateStock (db : DB) (id : N) (quantity : Z) : DB * Response :=
  if negb (is_intb quantity) || (quantity =? 0) then
    (db, JSON StatusBadRequest (gin_H [("error", JStr "Invalid request body")]))
  else
    match products db !! id with
    | None => (db, JSON StatusNotFound (gin_H [("error", JStr "Product not found")]))
    | Some p =>
        (set_products db (<[id := set_Stock p quantity]> (products db)), Status StatusOK)
    end.

(** [database.DB.Delete(&product)] sets [DeletedAt]: the row leaves the
    live rows. *)
Definition DeleteProduct (db : DB) (id : N) : DB * Response :=
  match products db !! id with
  | None => (db, JSON StatusNotFound (gin_H [("error", JStr "Product not found")]))
  | Some _ => (set_products db (delete id (products db)), Status StatusNoContent)
  end.

(** ** The cart of the frontend (CartContext) *)

(** JavaScript numbers are binary64 floats; [===] on numbers is the IEEE
    equality. *)
Module Cart.

Record Product : Type := mkProduct {
  id : float;
  name : string;
  description : string;
  price : float;
  sku : string;
  stock : float;
  created_at : string;
  updated_at : string
}.

Record CartItem : Type := mkCartItem {
  product : Product;
  quantity : float
}.

Record CartState : Type := mkCartState {
  items : list CartItem;
  total : float
}.

Inductive CartAction : Type :=
| ADD_ITEM (product : Product) (quantity : float)
| REMOVE_ITEM (productId : float)
| UPDATE_QUANTITY (productId : float) (quantity : float)
| CLEAR_CART.

Definition calculateTotal (items : list CartItem) : float :=
  fold_left
    (λ total item, PrimFloat.add total (PrimFloat.mul (price (product item)) (quantity item)))
    items 0%float.

Definition cartReducer (state : CartState) (action : CartAction) : CartState :=
  match action with
  | ADD_ITEM product0 quantity0 =>
      match find (λ item, PrimFloat.eqb (id (product item)) (id product0)) (items state) with
      | Some _ =>
          let updatedItems :=
            map (λ item, if PrimFloat.eqb (id (product item)) (id product0)
                         then {| product := product item;
                                 quantity := PrimFloat.add (quantity item) quantity0 |}
                         else item)
                (items state) in
          {| items := updatedItems; total := calculateTotal updatedItems |}
      | None =>
          let updatedItems := items state ++ [{| product := product0; quantity := quantity0 |}] in
          {| items := updatedItems; total := calculateTotal updatedItems |}
      end
  | REMOVE_ITEM productId =>
      let updatedItems :=
        List.filter (λ item, negb (PrimFloat.eqb (id (product item)) productId)) (items state) in
      {| items := updatedItems; total := calculateTotal updatedItems |}
  | UPDATE_QUANTITY productId quantity0 =>
      let updatedItems :=
        map (λ item, if PrimFloat.eqb (id (product item)) productId
                     then {| product := product item; quantity := quantity0 |}
                     else item)
            (items state) in
      {| items := updatedItems; total := calculateTotal updatedItems |}
  | CLEAR_CART => {| items := []; total := 0%float |}
  end.

(** [useReducer(cartReducer, { items: [], total: 0 })] *)
Definition initial : CartState := {| items := []; total := 0%float |}.

Definition dispatch_all (state : CartState) (actions : list CartAction) : CartState :=
  fold_left cartReducer actions state.

End Cart.

(** ** Quantities the further properties speak about *)

(** Position of a status on the way from pending to the final statuses. *)
Definition status_rank (s : OrderStatus) : nat :=
  if String.eqb s OrderStatusPaid then 1
  else if String.eqb s OrderStatusShipped then 2
  else if String.eqb s OrderStatusDelivered then 3
  else if String.eqb s OrderStatusCancelled then 3
  else 0.

(** Every status of the list may follow the one before it. *)
Fixpoint valid_chain (l : list OrderStatus) : bool :=
  match l with
  | a :: (b :: _) as rest => isValidStatusTransition a b && valid_chain rest
  | _ => true
  end.

Definition known_status (s : OrderStatus) : Prop :=
  In s [OrderStatusPending; OrderStatusPaid; OrderStatusShipped;
        OrderStatusDelivered; OrderStatusCancelled].

(** No two lines of the cart are for the same product: the [id] of a
    line is not [===] the [id] of any later line. *)
Fixpoint distinct_lines (l : list Cart.CartItem) : Prop :=
  match l with
  | [] => True
  | x :: rest =>
      Forall (λ y, PrimFloat.eqb (Cart.id (Cart.product x)) (Cart.id (Cart.product y)) = false)
             rest
      ∧ distinct_lines rest
  end.

(** The calls of [CreateOrder] for the requests, one after the other. *)
Definition create_all (db : DB) (reqs : list Order) : DB :=
  fold_left (λ d r, (CreateOrder d r).1) reqs db.

(** What the orders created by those calls take from product [k]. *)
Fixpoint debited_all (db : DB) (reqs : list Order) (k : N) : Z :=
  match reqs with
  | [] => 0
  | r :: rest =>
      (match body (CreateOrder db r).2 with
       | JOrder o => debited (Order_Items o) k
       | _ => 0
       end) + debited_all (CreateOrder db r).1 rest k
  end.

(** ** Calls of [CreateOrder] that overlap *)

(** Where a call stands in its loop: before [tx.First] for the next
    item, or past the stock check and before [Update], holding the
    [product] it has read. *)
Inductive Phase : Type :=
| AtFirst
| AtUpdate (product : Product).

(** A call in progress: the bound request, the items the loop has yet
    to visit, the items priced so far, the running [total], the rows
    the open transaction has written, and the answer once there is one. *)
Record Call : Type := mkCall {
  call_order : Order;
  call_todo : list OrderItem;
  call_items : list OrderItem;
  call_total : float;
  call_writes : gmap N Product;
  call_phase : Phase;
  call_answer : option Response
}.

Definition begin (order : Order) : Call :=
  {| call_order := order; call_todo := Order_Items order; call_items := [];
     call_total := 0%float; call_writes := ∅; call_phase := AtFirst; call_answer := None |}.

(** What a statement of the call sees: the committed rows and, over
    them, the rows its own transaction has written. *)
Definition view (db : DB) (c : Call) : DB :=
  set_products db (call_writes c ∪ products db).

(** The call answers [r]; its transaction is over, committed or rolled
    back, and holds no row any more. *)
Definition finish (c : Call) (r : Response) : Call :=
  {| call_order := call_order c; call_todo := call_todo c; call_items := call_items c;
     call_total := call_total c; call_writes := ∅; call_phase := call_phase c;
     call_answer := Some r |}.

Definition set_phase (c : Call) (ph : Phase) : Call :=
  {| call_order := call_order c; call_todo := call_todo c; call_items := call_items c;
     call_total := call_total c; call_writes := call_writes c; call_phase := ph;
     call_answer := call_answer c |}.

(** Another open transaction has written row [k] and not yet committed:
    the store makes an [UPDATE] of that row wait. *)
Definition locked (others : list Call) (k : N) : bool :=
  existsb (λ c, bool_decide (is_Some (call_writes c !! k))) others.

(** The next statement of call [c] against the committed store [db],
    [others] being the calls in progress next to it.
    - [tx.First] and the stock check: the read and the check of
      [reserve] on what the call sees; no row is locked.
    - [tx.Model(&product).Update("stock", product.Stock-item.Quantity)]:
      the difference is taken from the [product] read before, and
      written to the row whatever its stock is by now.
    - past the loop: [tx.Create] and [tx.Commit], which puts the rows
      written over the committed ones. *)
Definition statement (db : DB) (others : list Call) (c : Call) : DB * Call :=
  match call_answer c with
  | Some _ => (db, c)
  | None =>
      match call_phase c, call_todo c with
      | AtFirst, item :: _ =>
          match reserve (view db c) item with
          | Abort r => (db, finish c r)
          | Done (_, product) => (db, set_phase c (AtUpdate product))
          end
      | AtUpdate product, item :: rest =>
          if locked others (Item_ProductID item) then (db, c)
          else
            (db,
             {| call_order := call_order c;
                call_todo := rest;
                call_items := call_items c ++ [set_Price item (Product_Price product)];
                call_total :=
                  PrimFloat.add (call_total c)
                    (PrimFloat.mul (Product_Price product) (float64 (Item_Quantity item)));
                call_writes :=
                  match products (view db c) !! Item_ProductID item with
                  | Some row =>
                      <[Item_ProductID item :=
                          set_Stock row (wrap_int (Product_Stock product - Item_Quantity item))]>
                        (call_writes c)
                  | None => call_writes c
                  end;
                call_phase := AtFirst;
                call_answer := None |})
      | AtFirst, [] =>
          match create_order (view db c)
                  (with_server_fields (call_order c) (call_items c) (call_total c)) with
          | None =>
              (db, finish c (JSON StatusInternalServerError
                               (gin_H [("error", JStr "Failed to create order")])))
          | Some (db', o) => (db', finish c (JSON StatusCreated (JOrder o)))
          end
      | AtUpdate _, [] => (db, c)
      end
  end.

(** A schedule names, statement by statement, the call that runs next. *)
Fixpoint run (sched : list nat) (db : DB) (calls : list Call) : DB * list Call :=
  match sched with
  | [] => (db, calls)
  | i :: sched' =>
      match calls !! i with
      | None => run sched' db calls
      | Some c =>
          let '(db', c') := statement db (delete i calls) c in
          run sched' db' (<[i := c']> calls)
      end
  end.

(** The statements of a call that gets through: two for every item, and
    the insert with the commit. *)
Definition statements (order : Order) : nat := 2 * length (Order_Items order) + 1.

(** The schedule in which no two calls overlap: call [i], then [i + 1],
    and so on. *)
Fixpoint serial_from (i : nat) (reqs : list Order) : list nat :=
  match reqs with
  | [] => []
  | r :: rest => repeat i (statements r) ++ serial_from (S i) rest
  end.

Definition serial (reqs : list Order) : list nat := serial_from 0 reqs.

(** The answers of calls handled one after the other. *)
Fixpoint answers (db : DB) (reqs : list Order) : list Response :=
  match reqs with
  | [] => []
  | r :: rest => (CreateOrder db r).2 :: answers (CreateOrder db r).1 rest
  end.

(** What a call that nothing interrupts comes to, from any point of its
    loop: the rest of the loop and the insert, on what the call sees. *)
Definition outcome (db : DB) (c : Call) : DB * Response :=
  match reserve_items (view db c) (call_todo c) (call_total c) with
  | Abort r => (db, r)
  | Done (tx, items, total) =>
      match create_order tx (with_server_fields (call_order c) (call_items c ++ items) total) with
      | None => (db, JSON StatusInternalServerError (gin_H [("error", JStr "Failed to create order")]))
      | Some (tx', o) => (tx', JSON StatusCreated (JOrder o))
      end
  end.

(** ** Sample data *)

Definition sample_product (price : float) (stock : Z) : Product :=
  {| Product_Name := "Test Product"; Product_Price := price; Product_Stock := stock |}.

Definition request (user : N) (items : list (N * Z)) : Order :=
  {| Order_ID := 0; Order_UserID := user; Order_Status := ""; Order_Total := 0%float;
     Order_Items := map (λ '(pid, q), mkOrderItem pid q 0%float) items |}.

(** The [float64] read from a [decimal(10,2)] column that holds [n / 100]. *)
Definition cents (n : Z) : float := PrimFloat.div (float64 n) 100%float.

(** One product at 9.99 with 10 in stock; and the same store with an
    order in a given status. *)
Definition db_scenario : DB :=
  {| products := <[1%N := sample_product (cents 999) 10]> ∅; orders := ∅ |}.

Definition db_with_status (status : OrderStatus) : DB :=
  set_orders db_scenario
    (<[1%N := mkOrder 1 1 status (cents 999) [mkOrderItem 1 1 (cents 999)]]> ∅).


(** One product at 9.5 with 5 in stock. *)
Definition db_five : DB :=
  {| products := <[1%N := sample_product 9.5%float 5]> ∅; orders := ∅ |}.

(** One product at 0.01 with 10 in stock. *)
Definition db_cent : DB :=
  {| products := <[1%N := sample_product (cents 1) 10]> ∅; orders := ∅ |}.

(** Product 1: price 9.5, stock 10.  Product 2: price 5, stock 4. *)
Definition db0 : DB :=
  {| products := <[1%N := sample_product 9.5%float 10]> (<[2%N := sample_product 5%float 4]> ∅);
     orders := ∅ |}.

(** [db0] after user 1 ordered three of product 1. *)
Definition db1 : DB := (CreateOrder db0 (request 1 [(1%N, 3)])).1.

(** One product, nothing in stock, no orders. *)
Definition db_sold_out : DB :=
  {| products := <[1%N := sample_product 9.5%float 0]> ∅; orders := ∅ |}.

(** User 1 orders -5 of product 1; user 2 orders 5; order 1 is
    cancelled. *)
Definition db_sold_out_1 : DB := (CreateOrder db_sold_out (request 1 [(1%N, -5)])).1.
Definition db_sold_out_2 : DB := (CreateOrder db_sold_out_1 (request 2 [(1%N, 5)])).1.
Definition db_sold_out_3 : DB := (CancelOrder db_sold_out_2 1).1.

(** * Properties *)

(** ** The state machine *)

Lemma isValidStatusTransition_allowed (current new : OrderStatus) :
  isValidStatusTransition current new = true ↔ allowed current new.
Proof.
  unfold isValidStatusTransition, validTransitions, allowed, transition_table.
  unfold OrderStatusPending, OrderStatusPaid, OrderStatusShipped,
         OrderStatusDelivered, OrderStatusCancelled.
  rewrite !lookup_insert, lookup_empty.
  repeat (destruct (decide _) as [<-|?]); cbn -[String.eqb];
    rewrite ?orb_true_iff, ?String.eqb_eq.
  all: split; intros Hx; repeat (destruct Hx as [Hx|Hx]); try done; simplify_eq; tauto.
Qed.

Lemma isValidStatusTransition_not_allowed (current new : OrderStatus) :
  isValidStatusTransition current new = false ↔ ¬ allowed current new.
Proof.
  rewrite <- isValidStatusTransition_allowed.
  destruct (isValidStatusTransition current new); naive_solver.
Qed.

Lemma eqb_empty_false (s : string) : s ≠ "" → String.eqb s "" = false.
Proof. intros Hs. by apply String.eqb_neq. Qed.

Lemma no_self_transition (s : OrderStatus) : ¬ allowed s s.
Proof.
  unfold allowed, transition_table. cbn.
  intros Hx; repeat (destruct Hx as [Hx|Hx]); try done; simplify_eq.
Qed.

Lemma no_transition_from_terminal (s : OrderStatus) :
  ¬ allowed OrderStatusDelivered s ∧ ¬ allowed OrderStatusCancelled s.
Proof.
  unfold allowed, transition_table. cbn.
  split; intros Hx; repeat (destruct Hx as [Hx|Hx]); try done; simplify_eq.
Qed.

(** What [UpdateOrderStatus] does on an existing order, by cases on the
    answer of [isValidStatusTransition]. *)
Lemma UpdateOrderStatus_existing (db : DB) (id : N) (order : Order) (new : OrderStatus) :
  orders db !! id = Some order →
  new ≠ "" →
  UpdateOrderStatus db id new =
    if isValidStatusTransition (Order_Status order) new
    then (set_orders db (<[id := set_Status order new]> (orders db)), Status StatusOK)
    else (db, JSON StatusBadRequest (gin_H [("error", JStr "Invalid status transition")])).
Proof.
  intros Hfind Hnew. unfold UpdateOrderStatus.
  rewrite (eqb_empty_false _ Hnew), Hfind.
  by destruct (isValidStatusTransition (Order_Status order) new).
Qed.

(** C3.  On an existing order whose status is [current], a request for
    [new] (any non-empty status string, so in particular each of the five
    statuses) is answered as the transition table says: an edge of the
    table is applied and answered with 200; anything else, in particular
    [new = current] and every request on a delivered or cancelled order,
    is answered with 400 "Invalid status transition" and the store,
    hence the status of the order, is left as it was. *)
Theorem UpdateOrderStatus_follows_table
    (db : DB) (id : N) (order : Order) (new : OrderStatus) :
  orders db !! id = Some order →
  new ≠ "" →
  (allowed (Order_Status order) new →
     code (UpdateOrderStatus db id new).2 = StatusOK ∧
     orders (UpdateOrderStatus db id new).1 !! id = Some (set_Status order new) ∧
     Order_Status (set_Status order new) = new) ∧
  (¬ allowed (Order_Status order) new →
     UpdateOrderStatus db id new =
       (db, JSON StatusBadRequest (gin_H [("error", JStr "Invalid status transition")])) ∧
     orders (UpdateOrderStatus db id new).1 !! id = Some order) ∧
  (new = Order_Status order ∨ Order_Status order = OrderStatusDelivered
     ∨ Order_Status order = OrderStatusCancelled →
     ¬ allowed (Order_Status order) new).
Proof.
  intros Hfind Hnew.
  rewrite (UpdateOrderStatus_existing db id order new Hfind Hnew).
  split; [|split].
  - intros Hal. apply isValidStatusTransition_allowed in Hal. rewrite Hal. cbn.
    by rewrite lookup_insert_eq.
  - intros Hal. apply isValidStatusTransition_not_allowed in Hal. by rewrite Hal.
  - intros [-> | [-> | ->]].
    + apply no_self_transition.
    + apply no_transition_from_terminal.
    + apply no_transition_from_terminal.
Qed.

Lemma UpdateOrderStatus_follows_table_witness :
  orders db1 !! 1%N = Some (mkOrder 1 1 "pending" 28.5%float [mkOrderItem 1 3 9.5%float]) ∧
  orders (UpdateOrderStatus db1 1 "paid").1 !! 1%N
    = Some (mkOrder 1 1 "paid" 28.5%float [mkOrderItem 1 3 9.5%float]) ∧
  UpdateOrderStatus db1 1 "delivered" =
    (db1, JSON StatusBadRequest (gin_H [("error", JStr "Invalid status transition")])).
Proof.
  assert (Hfind : orders db1 !! 1%N
                  = Some (mkOrder 1 1 "pending" 28.5%float [mkOrderItem 1 3 9.5%float]))
    by (vm_compute; reflexivity).
  split; [exact Hfind|]. split.
  - refine (proj1 (proj2 (proj1 (UpdateOrderStatus_follows_table db1 1 _ "paid" Hfind _) _))).
    + discriminate.
    + vm_compute. tauto.
  - refine (proj1 (proj1 (proj2 (UpdateOrderStatus_follows_table db1 1 _ "delivered" Hfind _)) _)).
    + discriminate.
    + vm_compute. intros Hx. repeat (destruct Hx as [Hx|Hx]); try done.
Defined.

(** C8 as stated asks for the updated order in the answer; the handler
    ends with [c.Status(http.StatusOK)] and writes no body. *)
Lemma UpdateOrderStatus_answers_without_order :
  orders db1 !! 1%N = Some (mkOrder 1 1 "pending" 28.5%float [mkOrderItem 1 3 9.5%float]) ∧
  allowed "pending" "paid" ∧
  code (UpdateOrderStatus db1 1 "paid").2 = StatusOK ∧
  ¬ ∃ o : Order, body (UpdateOrderStatus db1 1 "paid").2 = JOrder o.
Proof.
  split; [by vm_compute|]. split; [vm_compute; tauto|]. split; [by vm_compute|].
  intros [o Ho]. vm_compute in Ho. discriminate Ho.
Qed.

(** C8, amended.  An allowed transition on an existing order is answered
    with status 200 and an empty body; the new status is stored in the
    order; the products table (so every stock), the items and the total
    of the order, and every other order are as before. *)
Theorem UpdateOrderStatus_changes_status_only
    (db : DB) (id : N) (order : Order) (new : OrderStatus) :
  orders db !! id = Some order →
  new ≠ "" →
  allowed (Order_Status order) new →
  (UpdateOrderStatus db id new).2 = Status StatusOK ∧
  products (UpdateOrderStatus db id new).1 = products db ∧
  (∃ order', orders (UpdateOrderStatus db id new).1 !! id = Some order' ∧
     Order_Status order' = new ∧
     Order_Items order' = Order_Items order ∧
     Order_Total order' = Order_Total order ∧
     Order_UserID order' = Order_UserID order ∧
     Order_ID order' = Order_ID order) ∧
  (∀ id', id' ≠ id →
     orders (UpdateOrderStatus db id new).1 !! id' = orders db !! id').
Proof.
  intros Hfind Hnew Hal.
  rewrite (UpdateOrderStatus_existing db id order new Hfind Hnew).
  apply isValidStatusTransition_allowed in Hal. rewrite Hal. cbn.
  repeat split.
  - exists (set_Status order new). by rewrite lookup_insert_eq.
  - intros id' Hne. by rewrite lookup_insert_ne.
Qed.

Lemma UpdateOrderStatus_changes_status_only_witness :
  (UpdateOrderStatus db1 1 "cancelled").2 = Status StatusOK ∧
  products (UpdateOrderStatus db1 1 "cancelled").1 = products db1.
Proof.
  pose proof (UpdateOrderStatus_changes_status_only db1 1
                (mkOrder 1 1 "pending" 28.5%float [mkOrderItem 1 3 9.5%float]) "cancelled")
    as Hw.
  destruct Hw as (Hresp & Hprod & _).
  - vm_compute; reflexivity.
  - discriminate.
  - vm_compute. tauto.
  - split; [exact Hresp | exact Hprod].
Defined.

(** ** Primary keys *)

Lemma max_key_bound (os : gmap N Order) (k : N) :
  is_Some (os !! k) → (k ≤ map_fold (λ k _ acc, N.max k acc) 0 os)%N.
Proof.
  revert k.
  apply (map_fold_weak_ind (λ r (m : gmap N Order), ∀ k, is_Some (m !! k) → (k ≤ r)%N)).
  - intros k [x Hx]. by rewrite lookup_empty in Hx.
  - intros i x m r Hi IH k Hk.
    destruct (decide (i = k)) as [->|Hne].
    + lia.
    + rewrite lookup_insert_ne in Hk by done. specialize (IH k Hk). lia.
Qed.

Lemma next_order_id_fresh (os : gmap N Order) : os !! next_order_id os = None.
Proof.
  destruct (os !! next_order_id os) as [o|] eqn:E; [|done].
  assert (Hb := max_key_bound os (next_order_id os) (mk_is_Some _ _ E)).
  unfold next_order_id in Hb. lia.
Qed.

(** [tx.Create] stores the order under a key that was free, touches no
    other row, and changes nothing of the order but a zero key and the
    total, which is the one the column holds. *)
Lemma create_order_Some (tx db' : DB) (order o : Order) :
  create_order tx order = Some (db', o) →
  products db' = products tx ∧
  orders db' = <[Order_ID o := o]> (orders tx) ∧
  orders tx !! Order_ID o = None ∧
  Order_UserID o = Order_UserID order ∧
  Order_Status o = Order_Status order ∧
  decimal_10_2 (Order_Total order) = Some (Order_Total o) ∧
  Order_Items o = Order_Items order.
Proof.
  unfold create_order. intros Hc.
  destruct (decimal_10_2 (Order_Total order)) as [total|]; [|done].
  destruct (Order_ID order =? 0)%N.
  - simplify_eq. cbn. repeat split. apply next_order_id_fresh.
  - destruct (orders tx !! Order_ID order) eqn:E; simplify_eq. by cbn.
Qed.

(** ** The reservation loop *)

Lemma reserve_Done (tx tx1 : DB) (item : OrderItem) (product : Product) :
  reserve tx item = Done (tx1, product) →
  products tx !! Item_ProductID item = Some product ∧
  Item_Quantity item ≤ Product_Stock product ∧
  tx1 = set_products tx
          (<[Item_ProductID item :=
               set_Stock product (wrap_int (Product_Stock product - Item_Quantity item))]>
             (products tx)).
Proof.
  unfold reserve. intros Hr.
  destruct (products tx !! Item_ProductID item) as [p|]; [|done].
  destruct (Z.ltb_spec (Product_Stock p) (Item_Quantity item)); [done|].
  by simplify_eq.
Qed.

Lemma reserve_Abort (tx : DB) (item : OrderItem) (r : Response) :
  reserve tx item = Abort r →
  (products tx !! Item_ProductID item = None ∧
   r = JSON StatusNotFound
         (gin_H [("error", JStr "Product not found");
                 ("product_id", JInt (Z.of_N (Item_ProductID item)))])) ∨
  (∃ p, products tx !! Item_ProductID item = Some p ∧
        Product_Stock p < Item_Quantity item ∧
        r = JSON StatusBadRequest
              (gin_H [("error", JStr "Insufficient stock");
                      ("product_id", JInt (Z.of_N (Item_ProductID item)));
                      ("available", JInt (Product_Stock p));
                      ("requested", JInt (Item_Quantity item))])).
Proof.
  unfold reserve. intros Hr.
  destruct (products tx !! Item_ProductID item) as [p|]; [|left; by simplify_eq].
  destruct (Z.ltb_spec (Product_Stock p) (Item_Quantity item)); [|done].
  right. exists p. by simplify_eq.
Qed.


Lemma reserve_items_cons (tx : DB) (item : OrderItem) (rest : list OrderItem) (t : float) :
  reserve_items tx (item :: rest) t =
    match reserve tx item with
    | Abort r => Abort r
    | Done (tx1, product) =>
        match reserve_items tx1 rest
                (PrimFloat.add t
                   (PrimFloat.mul (Product_Price product) (float64 (Item_Quantity item)))) with
        | Abort r => Abort r
        | Done (tx2, rest', t') => Done (tx2, set_Price item (Product_Price product) :: rest', t')
        end
    end.
Proof.
  cbn. destruct (reserve tx item) as [[tx1 p]|r]; [|done]. cbn.
  by destruct (reserve_items tx1 rest _) as [[[tx2 rest'] t']|r].
Qed.

(** One turn of the loop that got through. *)
Lemma reserve_items_cons_Done
    (tx tx' : DB) (item : OrderItem) (rest items' : list OrderItem) (t t' : float) :
  reserve_items tx (item :: rest) t = Done (tx', items', t') →
  ∃ tx1 product rest',
    reserve tx item = Done (tx1, product) ∧
    reserve_items tx1 rest
      (PrimFloat.add t (PrimFloat.mul (Product_Price product) (float64 (Item_Quantity item))))
      = Done (tx', rest', t') ∧
    items' = set_Price item (Product_Price product) :: rest'.
Proof.
  rewrite reserve_items_cons. intros Hr.
  destruct (reserve tx item) as [[tx1 p]|r] eqn:E1; [|done].
  destruct (reserve_items tx1 rest _) as [[[tx2 rest'] t2]|r] eqn:E2; [|done].
  simplify_eq. by exists tx1, p, rest'.
Qed.

Ltac loop_step Hr tx1 p rest' E1 E2 :=
  apply reserve_items_cons_Done in Hr as (tx1 & p & rest' & E1 & E2 & ->).


(** The loop writes to the products table only. *)
Lemma reserve_items_orders (tx tx' : DB) (items items' : list OrderItem) (t t' : float) :
  reserve_items tx items t = Done (tx', items', t') → orders tx' = orders tx.
Proof.
  revert tx t items'. induction items as [|item rest IH]; intros tx t items' Hr.
  - cbn in Hr. by simplify_eq.
  - loop_step Hr tx1 p rest' E1 E2.
    apply IH in E2. apply reserve_Done in E1 as (_ & _ & ->). by rewrite E2.
Qed.

(** The loop never writes a price. *)
Lemma reserve_price (tx tx1 : DB) (item : OrderItem) (product : Product) (k : N) :
  reserve tx item = Done (tx1, product) →
  Product_Price <$> products tx1 !! k = Product_Price <$> products tx !! k.
Proof.
  intros (Hfind & _ & ->)%reserve_Done. cbn.
  destruct (decide (Item_ProductID item = k)) as [<-|Hne].
  - by rewrite lookup_insert_eq, Hfind.
  - by rewrite lookup_insert_ne.
Qed.

Lemma reserve_items_price (tx tx' : DB) (items items' : list OrderItem) (t t' : float) (k : N) :
  reserve_items tx items t = Done (tx', items', t') →
  Product_Price <$> products tx' !! k = Product_Price <$> products tx !! k.
Proof.
  revert tx t items'. induction items as [|item rest IH]; intros tx t items' Hr.
  - cbn in Hr. by simplify_eq.
  - loop_step Hr tx1 p rest' E1 E2.
    rewrite (IH _ _ _ E2). by eapply reserve_price.
Qed.

(** The items the loop hands back: what was requested, priced with the
    price read from the product row. *)
Lemma reserve_items_items (tx tx' : DB) (items items' : list OrderItem) (t t' : float) :
  reserve_items tx items t = Done (tx', items', t') →
  Forall2 (λ it it', requested it' = requested it ∧
                     ∃ p, products tx !! Item_ProductID it = Some p ∧
                          Item_Price it' = Product_Price p) items items'.
Proof.
  revert tx t items'. induction items as [|item rest IH]; intros tx t items' Hr.
  - cbn in Hr. simplify_eq. constructor.
  - loop_step Hr tx1 p rest' E1 E2.
    constructor.
    + split; [done|]. exists p. split; [|done]. by apply reserve_Done in E1 as (? & _).
    + eapply Forall2_impl; [exact (IH _ _ _ E2)|].
      intros it it' (Hreq & p' & Hp' & Hprice). split; [done|].
      pose proof (reserve_price _ _ _ _ (Item_ProductID it) E1) as Hk.
      rewrite Hp' in Hk. cbn in Hk.
      destruct (products tx !! Item_ProductID it) as [p0|]; [|done].
      exists p0. split; [done|]. cbn in Hk. congruence.
Qed.

(** The total the loop hands back. *)
Lemma reserve_items_total (tx tx' : DB) (items items' : list OrderItem) (t t' : float) :
  reserve_items tx items t = Done (tx', items', t') → t' = items_total t items'.
Proof.
  revert tx t items'. induction items as [|item rest IH]; intros tx t items' Hr.
  - cbn in Hr. by simplify_eq.
  - loop_step Hr tx1 p rest' E1 E2.
    by rewrite (IH _ _ _ E2).
Qed.

(** Only the requested product and quantity of an item are read. *)
Lemma reserve_items_requested (tx : DB) (l1 l2 : list OrderItem) (t : float) :
  map requested l1 = map requested l2 → reserve_items tx l1 t = reserve_items tx l2 t.
Proof.
  revert tx t l2. induction l1 as [|i1 l1 IH]; intros tx t [|i2 l2] Hm; try done.
  destruct i1 as [pid1 q1 x1], i2 as [pid2 q2 x2].
  cbn [map requested Item_ProductID Item_Quantity] in Hm.
  injection Hm as -> -> Hl.
  rewrite !reserve_items_cons.
  unfold reserve, set_Price. cbn [Item_ProductID Item_Quantity].
  destruct (products tx !! pid2) as [p|]; [|done].
  destruct (Product_Stock p <? q2); [done|].
  by rewrite (IH _ _ l2 Hl).
Qed.

(** The error answers of the loop. *)
Lemma reserve_items_Abort (tx : DB) (items : list OrderItem) (t : float) (r : Response) :
  reserve_items tx items t = Abort r →
  code r = StatusNotFound ∨ code r = StatusBadRequest.
Proof.
  revert tx t. induction items as [|item rest IH]; intros tx t Hr.
  - done.
  - rewrite reserve_items_cons in Hr.
    destruct (reserve tx item) as [[tx1 p]|r0] eqn:E1.
    + destruct (reserve_items tx1 rest _) as [[[tx2 rest'] t2]|r1] eqn:E2; [done|].
      simplify_eq. by eapply IH.
    + simplify_eq. apply reserve_Abort in E1 as [(_ & ->) | (p & _ & _ & ->)]; cbn; auto.
Qed.

(** ** [CreateOrder], case by case *)

Lemma CreateOrder_unfold (db : DB) (order : Order) :
  CreateOrder db order =
    match reserve_items db (Order_Items order) 0%float with
    | Abort r => (db, r)
    | Done (tx, items, total) =>
        match create_order tx (with_server_fields order items total) with
        | None => (db, JSON StatusInternalServerError
                         (gin_H [("error", JStr "Failed to create order")]))
        | Some (tx', o) => (tx', JSON StatusCreated (JOrder o))
        end
    end.
Proof. reflexivity. Qed.

Lemma CreateOrder_created (db db' : DB) (order o : Order) :
  CreateOrder db order = (db', JSON StatusCreated (JOrder o)) →
  ∃ tx items total,
    reserve_items db (Order_Items order) 0%float = Done (tx, items, total) ∧
    create_order tx (with_server_fields order items total) = Some (db', o).
Proof.
  rewrite CreateOrder_unfold. intros Hc.
  destruct (reserve_items db (Order_Items order) 0%float) as [[[tx items] total]|r] eqn:E.
  - destruct (create_order tx _) as [[tx' o']|] eqn:Ec; [|done].
    simplify_eq. eauto.
  - simplify_eq. apply reserve_items_Abort in E. cbn in E. destruct E; done.
Qed.

(** Any answer but 201 comes with the store as it was. *)
Lemma CreateOrder_rollback (db : DB) (order : Order) :
  code (CreateOrder db order).2 ≠ StatusCreated → (CreateOrder db order).1 = db.
Proof.
  rewrite CreateOrder_unfold.
  destruct (reserve_items db (Order_Items order) 0%float) as [[[tx items] total]|r]; [|done].
  by destruct (create_order tx _) as [[tx' o']|].
Qed.

(** The order [CreateOrder] stores and answers with. *)
Lemma CreateOrder_created_order (db db' : DB) (order o : Order) :
  CreateOrder db order = (db', JSON StatusCreated (JOrder o)) →
  Order_Status o = OrderStatusPending ∧
  Order_UserID o = Order_UserID order ∧
  decimal_10_2 (items_total 0%float (Order_Items o)) = Some (Order_Total o) ∧
  Forall2 (λ it it', requested it' = requested it ∧
                     ∃ p, products db !! Item_ProductID it = Some p ∧
                          Item_Price it' = Product_Price p)
          (Order_Items order) (Order_Items o) ∧
  orders db' !! Order_ID o = Some o ∧
  orders db !! Order_ID o = None.
Proof.
  intros (tx & items & total & Hloop & Hc)%CreateOrder_created.
  apply create_order_Some in Hc as (_ & Hos & Hfree & Huser & Hstatus & Htotal & Hitems).
  cbn in Huser, Hstatus, Htotal, Hitems.
  rewrite Hitems, Hos, lookup_insert_eq.
  rewrite <- (reserve_items_orders _ _ _ _ _ _ Hloop).
  rewrite <- (reserve_items_total _ _ _ _ _ _ Hloop).
  repeat split; try done.
  by eapply reserve_items_items.
Qed.

(** ** Atomic rollback *)



(** ** Empty orders *)

(** C5 as stated has the empty request refused; the loop simply does not
    run and an order without items is stored. *)
Lemma CreateOrder_accepts_empty_order :
  Order_Items (request 1 []) = [] ∧
  CreateOrder db0 (request 1 []) =
    (set_orders db0 (<[1%N := mkOrder 1 1 "pending" 0%float []]> (orders db0)),
     JSON StatusCreated (JOrder (mkOrder 1 1 "pending" 0%float []))).
Proof. split; [reflexivity|]. vm_compute. reflexivity. Qed.

(** C5, amended.  A request without items (that leaves the key to the
    store) is not refused: it is answered with 201 and an order with
    status pending, total 0 and no items, stored under a new key; the
    products table is as before. *)
Theorem CreateOrder_empty_order (db : DB) (order : Order) :
  Order_Items order = [] →
  Order_ID order = 0%N →
  ∃ o, CreateOrder db order =
         (set_orders db (<[Order_ID o := o]> (orders db)), JSON StatusCreated (JOrder o)) ∧
       o = {| Order_ID := next_order_id (orders db); Order_UserID := Order_UserID order;
              Order_Status := OrderStatusPending; Order_Total := 0%float; Order_Items := [] |} ∧
       orders db !! Order_ID o = None ∧
       products (CreateOrder db order).1 = products db.
Proof.
  intros Hitems Hid.
  exists {| Order_ID := next_order_id (orders db); Order_UserID := Order_UserID order;
            Order_Status := OrderStatusPending; Order_Total := 0%float; Order_Items := [] |}.
  rewrite CreateOrder_unfold, Hitems. cbn [reserve_items].
  unfold create_order, with_server_fields. cbn [Order_ID]. rewrite Hid. cbn.
  split; [reflexivity|]. split; [reflexivity|]. split; [|reflexivity].
  apply next_order_id_fresh.
Qed.

Lemma CreateOrder_empty_order_witness :
  ∃ o, CreateOrder db1 (request 7 []) =
         (set_orders db1 (<[Order_ID o := o]> (orders db1)), JSON StatusCreated (JOrder o)) ∧
       o = {| Order_ID := next_order_id (orders db1); Order_UserID := 7;
              Order_Status := OrderStatusPending; Order_Total := 0%float; Order_Items := [] |} ∧
       orders db1 !! Order_ID o = None ∧
       products (CreateOrder db1 (request 7 [])).1 = products db1.
Proof. apply (CreateOrder_empty_order db1 (request 7 [])); reflexivity. Defined.

(** ** Stored orders keep their items and total *)



(** ** Totals and frozen prices *)




(** ** Client-supplied totals, statuses and prices *)

(** C10.  Two requests with the same key, user and list of (product,
    quantity) pairs get the same answer and leave the same store,
    whatever total, status and item prices they carry; and an order that
    is created has status pending, the prices of the product rows, and
    the total computed from them (as its column holds it). *)
Theorem CreateOrder_ignores_client_total_status_prices (db : DB) (order1 order2 : Order) :
  Order_ID order1 = Order_ID order2 →
  Order_UserID order1 = Order_UserID order2 →
  map requested (Order_Items order1) = map requested (Order_Items order2) →
  CreateOrder db order1 = CreateOrder db order2 ∧
  (∀ db' o, CreateOrder db order1 = (db', JSON StatusCreated (JOrder o)) →
     Order_Status o = OrderStatusPending ∧
     decimal_10_2 (items_total 0%float (Order_Items o)) = Some (Order_Total o) ∧
     Forall2 (λ it it', ∃ p, products db !! Item_ProductID it = Some p ∧
                             Item_Price it' = Product_Price p)
             (Order_Items order1) (Order_Items o)).
Proof.
  intros Hid Huser Hreq. split.
  - rewrite !CreateOrder_unfold, (reserve_items_requested db _ _ _ Hreq).
    unfold with_server_fields. by rewrite Hid, Huser.
  - intros db' o (Hst & _ & Htotal & Hitems & _)%CreateOrder_created_order.
    repeat split; try done.
    eapply Forall2_impl; [exact Hitems|]. by intros it it' (_ & Hp).
Qed.

Lemma CreateOrder_ignores_client_total_status_prices_witness :
  CreateOrder db0 (mkOrder 0 1 "delivered" 0.5%float [mkOrderItem 1 3 0.25%float]) =
  CreateOrder db0 (request 1 [(1%N, 3)]).
Proof.
  apply (CreateOrder_ignores_client_total_status_prices db0
           (mkOrder 0 1 "delivered" 0.5%float [mkOrderItem 1 3 0.25%float])
           (request 1 [(1%N, 3)])); reflexivity.
Defined.

(** ** Quantities that are not positive *)

Lemma is_intb_spec (z : Z) : is_intb z = true ↔ is_int z.
Proof. unfold is_intb, is_int. rewrite andb_true_iff, !Z.leb_le. tauto. Qed.

Lemma wrap_int_id (z : Z) : is_int z → wrap_int z = z.
Proof.
  unfold is_int, int_min, int_max, wrap_int. intros Hz.
  rewrite Z.mod_small; lia.
Qed.

(** C6 as stated has a quantity of -5 refused; the stock check
    [product.Stock < item.Quantity] lets it pass, the stock goes from 10
    to 15 and the order is stored with that quantity. *)
Lemma CreateOrder_accepts_negative_quantity :
  Item_Quantity (mkOrderItem 1 (-5) 0%float) ≤ 0 ∧
  Product_Stock <$> products db0 !! 1%N = Some 10 ∧
  CreateOrder db0 (request 1 [(1%N, -5)]) =
    ({| products := <[1%N := sample_product 9.5%float 15]> (products db0);
        orders := <[1%N := mkOrder 1 1 "pending" (-47.5)%float
                              [mkOrderItem 1 (-5) 9.5%float]]> ∅ |},
     JSON StatusCreated
       (JOrder (mkOrder 1 1 "pending" (-47.5)%float [mkOrderItem 1 (-5) 9.5%float]))).
Proof. split; [cbn; lia|]. split; vm_compute; reflexivity. Qed.

Lemma Forall2_In_l {A B : Type} (P : A → B → Prop) (l : list A) (k : list B) (x : A) :
  Forall2 P l k → In x l → ∃ y, In y k ∧ P x y.
Proof.
  induction 1 as [|a b l k Hab _ IH]; intros Hin; [done|].
  destruct Hin as [<- | Hin].
  - exists b. split; [by left | done].
  - destruct (IH Hin) as (y & Hy & Hxy). exists y. split; [by right | done].
Qed.

(** The answers of [CreateOrder] other than 201. *)
Lemma CreateOrder_errors (db : DB) (order : Order) :
  code (CreateOrder db order).2 ≠ StatusCreated →
  ∃ msg rest, body (CreateOrder db order).2 = gin_H (("error", JStr msg) :: rest) ∧
              In msg ["Product not found"; "Insufficient stock"; "Failed to create order"].
Proof.
  rewrite CreateOrder_unfold.
  destruct (reserve_items db (Order_Items order) 0%float) as [[[tx items] total]|r] eqn:E.
  - destruct (create_order tx _) as [[tx' o']|]; [done|].
    intros _. cbn. eexists _, _. split; [reflexivity|]. cbn. tauto.
  - intros _. cbn. clear -E. revert E. generalize 0%float. generalize db.
    induction (Order_Items order) as [|item rest IH]; intros tx t Hr; [done|].
    rewrite reserve_items_cons in Hr.
    destruct (reserve tx item) as [[tx1 p]|r0] eqn:E1.
    + destruct (reserve_items tx1 rest _) as [[[tx2 rest'] t2]|r1] eqn:E2; [done|].
      simplify_eq. by eapply IH.
    + simplify_eq.
      apply reserve_Abort in E1 as [(_ & ->) | (p & _ & _ & ->)]; cbn;
        eexists _, _; (split; [reflexivity|]); cbn; tauto.
Qed.

(** C6, amended.  [CreateOrder] does not look at the sign of a quantity.
    For a bound request containing an item with quantity ≤ 0:
    - if the request is that single item, leaves the key to the store,
      the product exists with a non-negative stock and the total
      [price * quantity] fits the [decimal(10,2)] column, the order is
      created and the stock becomes [stock - quantity] (as an [int]);
    - whenever the answer is 201, the stored order contains an item with
      the requested product and quantity, so an order item with a
      quantity ≤ 0 exists;
    - whenever the answer is not 201, the store is as before and the
      error is one of "Product not found", "Insufficient stock" and
      "Failed to create order". *)
Theorem CreateOrder_does_not_validate_quantity (db : DB) (order : Order) (item : OrderItem) :
  bindable order →
  In item (Order_Items order) →
  Item_Quantity item ≤ 0 →
  (∀ p, Order_Items order = [item] → Order_ID order = 0%N →
        products db !! Item_ProductID item = Some p → 0 ≤ Product_Stock p →
        is_Some (decimal_10_2 (quoted_total (products db) [item])) →
        code (CreateOrder db order).2 = StatusCreated ∧
        products (CreateOrder db order).1 !! Item_ProductID item =
          Some (set_Stock p (wrap_int (Product_Stock p - Item_Quantity item)))) ∧
  (code (CreateOrder db order).2 = StatusCreated →
     ∃ o it', body (CreateOrder db order).2 = JOrder o ∧
              orders (CreateOrder db order).1 !! Order_ID o = Some o ∧
              In it' (Order_Items o) ∧
              requested it' = requested item ∧ Item_Quantity it' ≤ 0) ∧
  (code (CreateOrder db order).2 ≠ StatusCreated →
     (CreateOrder db order).1 = db ∧
     ∃ msg rest, body (CreateOrder db order).2 = gin_H (("error", JStr msg) :: rest) ∧
                 In msg ["Product not found"; "Insufficient stock"; "Failed to create order"]).
Proof.
  intros _ Hin Hq. split; [|split].
  - intros p Hitems Hid Hfind Hstock [t Ht].
    unfold quoted_total, quoted in Ht. cbn [map] in Ht. rewrite Hfind in Ht.
    unfold items_total, line_total in Ht.
    cbn [fold_left set_Price Item_Price Item_Quantity] in Ht.
    rewrite CreateOrder_unfold, Hitems, reserve_items_cons.
    unfold reserve. rewrite Hfind.
    destruct (Z.ltb_spec (Product_Stock p) (Item_Quantity item)) as [Hlt|_]; [lia|].
    cbn [reserve_items]. unfold create_order, with_server_fields. cbn [Order_ID Order_Total].
    rewrite Ht, Hid. cbn. by rewrite lookup_insert_eq.
  - intros Hcode.
    destruct (CreateOrder db order) as [db' [c b]] eqn:Hc. cbn in Hcode. subst c.
    assert (∃ o, b = JOrder o) as [o ->].
    { revert Hc. rewrite CreateOrder_unfold.
      destruct (reserve_items db (Order_Items order) 0%float) as [[[tx items] total]|r] eqn:E.
      - destruct (create_order tx _) as [[tx' o']|]; [|done].
        unfold JSON. intros ?; simplify_eq. eauto.
      - intros ?; simplify_eq. apply reserve_items_Abort in E. cbn in E. by destruct E. }
    apply CreateOrder_created_order in Hc as (_ & _ & _ & Hitems & Hstored & _).
    destruct (Forall2_In_l _ _ _ _ Hitems Hin) as (it' & Hin' & Hreq & _).
    exists o, it'. cbn. repeat split; try done.
    unfold requested in Hreq. injection Hreq as _ ->. done.
  - intros Hcode. split.
    + by apply CreateOrder_rollback.
    + by apply CreateOrder_errors.
Qed.

Lemma CreateOrder_does_not_validate_quantity_witness :
  code (CreateOrder db0 (request 1 [(2%N, -5)])).2 = StatusCreated ∧
  products (CreateOrder db0 (request 1 [(2%N, -5)])).1 !! 2%N =
    Some (set_Stock (sample_product 5%float 4) (wrap_int (4 - -5))).
Proof.
  refine (proj1 (CreateOrder_does_not_validate_quantity db0 (request 1 [(2%N, -5)])
                   (mkOrderItem 2 (-5) 0%float) _ _ _) (sample_product 5%float 4) _ _ _ _ _).
  - unfold bindable, is_uint, is_int, int_min, int_max. cbn.
    split; [lia|]. split; [lia|]. constructor; [|constructor]. cbn. lia.
  - cbn. by left.
  - cbn. lia.
  - reflexivity.
  - reflexivity.
  - vm_compute. reflexivity.
  - cbn. lia.
  - eexists. vm_compute. reflexivity.
Defined.

(** ** Stock accounting *)

Lemma add_Stock_0 (p : Product) : add_Stock 0 p = p.
Proof. destruct p. unfold add_Stock, set_Stock. cbn. f_equal. lia. Qed.

Lemma add_Stock_add (d1 d2 : Z) (p : Product) :
  add_Stock d2 (add_Stock d1 p) = add_Stock (d1 + d2) p.
Proof. destruct p. unfold add_Stock, set_Stock. cbn. f_equal. lia. Qed.

Lemma positive_items_requested (l1 l2 : list OrderItem) :
  map requested l1 = map requested l2 → positive_items l1 → positive_items l2.
Proof.
  revert l2. induction l1 as [|i1 l1 IH]; intros [|i2 l2] Hm Hp; try done.
  cbn [map] in Hm. unfold requested at 1 3 in Hm. injection Hm as _ Hq' Hl.
  apply Forall_cons in Hp as [Hq Hp].
  constructor; [|by apply IH]. by rewrite <- Hq'.
Qed.

Lemma debited_requested (l1 l2 : list OrderItem) (k : N) :
  map requested l1 = map requested l2 → debited l1 k = debited l2 k.
Proof.
  revert l2. induction l1 as [|i1 l1 IH]; intros [|i2 l2] Hm; try done.
  cbn [map] in Hm. unfold requested at 1 3 in Hm. injection Hm as Hpid Hq Hl.
  cbn. by rewrite Hpid, Hq, (IH l2 Hl).
Qed.

Lemma debited_nonneg (items : list OrderItem) (k : N) :
  positive_items items → 0 ≤ debited items k.
Proof.
  induction 1 as [|it rest Hq _ IH]; cbn; [lia|]. case_decide; lia.
Qed.

Lemma Forall2_requested (P : OrderItem → OrderItem → Prop) (l1 l2 : list OrderItem) :
  Forall2 (λ it it', requested it' = requested it ∧ P it it') l1 l2 →
  map requested l2 = map requested l1.
Proof. induction 1 as [|a b l k [Hab _] _ IH]; cbn; [done|]. by rewrite Hab, IH. Qed.

(** *** Debit *)

(** One reservation of a positive quantity keeps the stocks non-negative
    and takes exactly the quantity from the product. *)
Lemma reserve_stock (tx tx1 : DB) (item : OrderItem) (product : Product) :
  stock_ok (products tx) →
  0 < Item_Quantity item →
  reserve tx item = Done (tx1, product) →
  stock_ok (products tx1) ∧
  ∀ k, products tx1 !! k =
       add_Stock (- (if decide (Item_ProductID item = k) then Item_Quantity item else 0))
         <$> products tx !! k.
Proof.
  intros Hok Hq (Hfind & Hle & ->)%reserve_Done. cbn.
  destruct (Hok _ _ Hfind) as [_ Hmax].
  rewrite wrap_int_id by (unfold is_int, int_min, int_max in *; lia).
  split.
  - intros k p. destruct (decide (Item_ProductID item = k)) as [<-|Hne].
    + rewrite lookup_insert_eq. intros ?; simplify_eq. cbn. lia.
    + rewrite lookup_insert_ne by done. apply Hok.
  - intros k. case_decide as Hk.
    + subst k. rewrite lookup_insert_eq, Hfind. cbn. unfold add_Stock, set_Stock.
      repeat f_equal; lia.
    + rewrite lookup_insert_ne by done.
      destruct (products tx !! k) as [p|]; [|done]. cbn. by rewrite add_Stock_0.
Qed.

Lemma reserve_items_stock (tx tx' : DB) (items items' : list OrderItem) (t t' : float) :
  stock_ok (products tx) →
  positive_items items →
  reserve_items tx items t = Done (tx', items', t') →
  stock_ok (products tx') ∧
  ∀ k, products tx' !! k = add_Stock (- debited items k) <$> products tx !! k.
Proof.
  revert tx t items'. induction items as [|item rest IH]; intros tx t items' Hok Hpos Hr.
  - cbn in Hr. simplify_eq. split; [done|]. intros k. cbn.
    destruct (products tx' !! k) as [p|]; [|done]. cbn. by rewrite add_Stock_0.
  - apply Forall_cons in Hpos as [Hq Hpos].
    loop_step Hr tx1 p rest' E1 E2.
    destruct (reserve_stock _ _ _ _ Hok Hq E1) as [Hok1 Hstep].
    destruct (IH _ _ _ Hok1 Hpos E2) as [Hok2 Hrest].
    split; [done|]. intros k. rewrite Hrest, Hstep. cbn [debited].
    destruct (products tx !! k) as [p0|]; [|done]. cbn.
    rewrite add_Stock_add. f_equal. f_equal; lia.
Qed.

(** *** Credit *)

Lemma restore_Some (ps ps1 : gmap N Product) (item : OrderItem) :
  restore ps item = Some ps1 →
  ∀ k, ps1 !! k =
       add_Stock (if decide (Item_ProductID item = k) then Item_Quantity item else 0) <$> ps !! k.
Proof.
  unfold restore. intros Hr k.
  destruct (ps !! Item_ProductID item) as [p|] eqn:Hfind.
  - destruct (is_intb _); [|done]. simplify_eq.
    case_decide as Hk.
    + subst k. by rewrite lookup_insert_eq, Hfind.
    + rewrite lookup_insert_ne by done.
      destruct (ps !! k) as [p0|]; [|done]. cbn. by rewrite add_Stock_0.
  - simplify_eq. case_decide as Hk.
    + subst k. by rewrite Hfind.
    + destruct (ps1 !! k) as [p0|]; [|done]. cbn. by rewrite add_Stock_0.
Qed.

(** When the loop of [CancelOrder] gets through, every product has got
    back exactly what the items of the order take from it. *)
Lemma restore_items_Some (ps ps' : gmap N Product) (items : list OrderItem) :
  restore_items ps items = Some ps' →
  ∀ k, ps' !! k = add_Stock (debited items k) <$> ps !! k.
Proof.
  revert ps. induction items as [|item rest IH]; intros ps Hr k.
  - cbn in Hr. simplify_eq. cbn.
    destruct (ps' !! k) as [p|]; [|done]. cbn. by rewrite add_Stock_0.
  - cbn [restore_items] in Hr.
    destruct (restore ps item) as [ps1|] eqn:E1; [|done].
    rewrite (IH _ Hr k), (restore_Some _ _ _ E1 k). cbn [debited].
    destruct (ps !! k) as [p0|]; [|done]. cbn.
    by rewrite add_Stock_add.
Qed.

(** With positive quantities the loop gets through as soon as the stocks
    it ends with fit an [int]. *)
Lemma restore_items_succeeds (ps : gmap N Product) (items : list OrderItem) :
  positive_items items →
  (∀ k p, ps !! k = Some p →
          int_min ≤ Product_Stock p ∧ Product_Stock p + debited items k ≤ int_max) →
  ∃ ps', restore_items ps items = Some ps'.
Proof.
  revert ps. induction items as [|item rest IH]; intros ps Hpos Hfit; [by eexists|].
  apply Forall_cons in Hpos as [Hq Hpos].
  cbn [restore_items].
  assert (∃ ps1, restore ps item = Some ps1) as [ps1 E1].
  { unfold restore. destruct (ps !! Item_ProductID item) as [p|] eqn:Hfind; [|by eexists].
    destruct (Hfit _ _ Hfind) as [Hmin Hmax]. cbn [debited] in Hmax.
    rewrite decide_True in Hmax by done.
    pose proof (debited_nonneg rest (Item_ProductID item) Hpos).
    destruct (is_intb _) eqn:Hint; [by eexists|].
    apply not_true_iff_false in Hint. exfalso. apply Hint. apply is_intb_spec.
    unfold is_int. lia. }
  rewrite E1. apply IH; [done|].
  intros k p Hp. rewrite (restore_Some _ _ _ E1 k) in Hp.
  destruct (ps !! k) as [p0|] eqn:Hk; [|done]. cbn in Hp. simplify_eq.
  destruct (Hfit _ _ Hk) as [Hmin Hmax]. cbn [debited] in Hmax.
  unfold add_Stock. cbn. case_decide; lia.
Qed.

Lemma restore_items_stock_ok (ps ps' : gmap N Product) (items : list OrderItem) :
  stock_ok ps →
  positive_items items →
  restore_items ps items = Some ps' →
  stock_ok ps'.
Proof.
  revert ps. induction items as [|item rest IH]; intros ps Hok Hpos Hr.
  - cbn in Hr. by simplify_eq.
  - apply Forall_cons in Hpos as [Hq Hpos]. cbn [restore_items] in Hr.
    destruct (restore ps item) as [ps1|] eqn:E1; [|done].
    apply (IH ps1); [|done|done].
    unfold restore in E1.
    destruct (ps !! Item_ProductID item) as [p|] eqn:Hfind; [|by simplify_eq].
    destruct (is_intb _) eqn:Hint; [|done]. simplify_eq.
    apply is_intb_spec in Hint. unfold is_int in Hint.
    intros k p'. destruct (decide (Item_ProductID item = k)) as [<-|Hne].
    + rewrite lookup_insert_eq. intros ?; simplify_eq. cbn.
      destruct (Hok _ _ Hfind). lia.
    + rewrite lookup_insert_ne by done. apply Hok.
Qed.

(** *** [CancelOrder], case by case *)

Lemma CancelOrder_cancellable (db : DB) (id : N) (order : Order) :
  orders db !! id = Some order →
  Order_Status order ≠ OrderStatusDelivered →
  Order_Status order ≠ OrderStatusCancelled →
  CancelOrder db id =
    match restore_items (products db) (Order_Items order) with
    | None => (db, JSON StatusInternalServerError
                     (gin_H [("error", JStr "Failed to restore stock")]))
    | Some ps =>
        ({| products := ps;
            orders := <[id := set_Status order OrderStatusCancelled]> (orders db) |},
         Status StatusOK)
    end.
Proof.
  intros Hfind Hd Hc. unfold CancelOrder. rewrite Hfind.
  apply String.eqb_neq in Hd, Hc. by rewrite Hd, Hc.
Qed.

Lemma CancelOrder_products (db : DB) (id : N) :
  products (CancelOrder db id).1 = products db ∨
  ∃ order, orders db !! id = Some order ∧
           restore_items (products db) (Order_Items order) = Some (products (CancelOrder db id).1).
Proof.
  unfold CancelOrder. destruct (orders db !! id) as [order|]; [|by left].
  destruct (String.eqb _ _); [by left|].
  destruct (String.eqb _ _); [by left|].
  destruct (restore_items _ _) as [ps|] eqn:E; [|by left].
  right. by exists order.
Qed.

Lemma UpdateOrderStatus_products (db : DB) (id : N) (status : OrderStatus) :
  products (UpdateOrderStatus db id status).1 = products db.
Proof.
  unfold UpdateOrderStatus. destruct (String.eqb status ""); [done|].
  destruct (orders db !! id) as [order|]; [|done].
  by destruct (negb _).
Qed.

Lemma stock_ok_empty : stock_ok ∅.
Proof. intros k p Hp. by rewrite lookup_empty in Hp. Qed.

Lemma stock_ok_insert (ps : gmap N Product) (k : N) (p : Product) :
  0 ≤ Product_Stock p ≤ int_max → stock_ok ps → stock_ok (<[k := p]> ps).
Proof.
  intros Hp Hok k' p'. destruct (decide (k = k')) as [<-|Hne].
  - rewrite lookup_insert_eq. by intros ?; simplify_eq.
  - rewrite lookup_insert_ne by done. apply Hok.
Qed.

Lemma stock_ok_db0 : stock_ok (products db0).
Proof.
  unfold db0, products.
  repeat (apply stock_ok_insert; [unfold int_max; cbn; lia|]). apply stock_ok_empty.
Qed.

(** ** Stock is never negative *)

(** C7 as stated fails: three committed calls, every stock non-negative
    before the third, a stock of -5 after it. *)
Lemma CancelOrder_drives_stock_negative :
  stock_ok (products db_sold_out) ∧
  code (CreateOrder db_sold_out (request 1 [(1%N, -5)])).2 = StatusCreated ∧
  stock_ok (products db_sold_out_1) ∧
  code (CreateOrder db_sold_out_1 (request 2 [(1%N, 5)])).2 = StatusCreated ∧
  stock_ok (products db_sold_out_2) ∧
  code (CancelOrder db_sold_out_2 1).2 = StatusOK ∧
  Product_Stock <$> products db_sold_out_3 !! 1%N = Some (-5) ∧
  ¬ stock_ok (products db_sold_out_3).
Proof.
  assert (H1 : products db_sold_out_1 = <[1%N := sample_product 9.5%float 5]> ∅)
    by (vm_compute; reflexivity).
  assert (H2 : products db_sold_out_2 = <[1%N := sample_product 9.5%float 0]> ∅)
    by (vm_compute; reflexivity).
  assert (H3 : products db_sold_out_3 !! 1%N = Some (sample_product 9.5%float (-5)))
    by (vm_compute; reflexivity).
  split_and!.
  - apply stock_ok_insert; [unfold int_max; cbn; lia | apply stock_ok_empty].
  - vm_compute. reflexivity.
  - rewrite H1. apply stock_ok_insert; [unfold int_max; cbn; lia | apply stock_ok_empty].
  - vm_compute. reflexivity.
  - rewrite H2. apply stock_ok_insert; [unfold int_max; cbn; lia | apply stock_ok_empty].
  - vm_compute. reflexivity.
  - by rewrite H3.
  - intros Hok. specialize (Hok _ _ H3). cbn in Hok. lia.
Qed.

(** C7, amended.  From a store in which every stock is a non-negative
    [int]:
    - [CreateOrder] on a request whose quantities are all positive ends
      in such a store, and so does every working copy the loop passes
      through, also when several items name the same product;
    - [UpdateOrderStatus] ends in such a store;
    - [CancelOrder] on an order whose quantities are all positive ends in
      such a store. *)
Theorem stock_never_negative_for_positive_quantities (db : DB) :
  stock_ok (products db) →
  (∀ order, positive_items (Order_Items order) →
     stock_ok (products (CreateOrder db order).1) ∧
     ∀ pre post tx pre' t,
       Order_Items order = pre ++ post →
       reserve_items db pre 0%float = Done (tx, pre', t) →
       stock_ok (products tx)) ∧
  (∀ id status, stock_ok (products (UpdateOrderStatus db id status).1)) ∧
  (∀ id, (∀ order, orders db !! id = Some order → positive_items (Order_Items order)) →
     stock_ok (products (CancelOrder db id).1)).
Proof.
  intros Hok. split; [|split].
  - intros order Hpos. split.
    + rewrite CreateOrder_unfold.
      destruct (reserve_items db (Order_Items order) 0%float) as [[[tx items] total]|r] eqn:E;
        [|done].
      destruct (create_order tx _) as [[tx' o']|] eqn:Ec; [|done].
      apply create_order_Some in Ec as (Hps & _). cbn. rewrite Hps.
      by destruct (reserve_items_stock _ _ _ _ _ _ Hok Hpos E).
    + intros pre post tx pre' t Hitems Hr.
      unfold positive_items in Hpos. rewrite Hitems in Hpos.
      apply Forall_app in Hpos as [Hpre _].
      by destruct (reserve_items_stock _ _ _ _ _ _ Hok Hpre Hr).
  - intros id status. by rewrite UpdateOrderStatus_products.
  - intros id Hpos.
    destruct (CancelOrder_products db id) as [-> | (order & Hfind & Hr)]; [done|].
    eapply restore_items_stock_ok; [exact Hok | exact (Hpos _ Hfind) | exact Hr].
Qed.

(** The same product twice in one request: 3 of 10, then 7 of the 7 left. *)
Lemma stock_never_negative_for_positive_quantities_witness :
  stock_ok (products db0) ∧
  stock_ok (products (CreateOrder db0 (request 1 [(1%N, 3); (1%N, 7)])).1).
Proof.
  split; [exact stock_ok_db0|].
  refine (proj1 (proj1 (stock_never_negative_for_positive_quantities db0 stock_ok_db0)
                   (request 1 [(1%N, 3); (1%N, 7)]) _)).
  repeat constructor.
Defined.

(** ** Cancelling gives the stock back *)

(** C4 as stated covers [UpdateOrderStatus]: it moves the pending order
    of [db1] to cancelled, and product 1, debited from 10 to 7 by that
    order, stays at 7. *)
Lemma UpdateOrderStatus_cancel_keeps_stock :
  Product_Stock <$> products db0 !! 1%N = Some 10 ∧
  Product_Stock <$> products db1 !! 1%N = Some 7 ∧
  orders db1 !! 1%N = Some (mkOrder 1 1 "pending" 28.5%float [mkOrderItem 1 3 9.5%float]) ∧
  code (UpdateOrderStatus db1 1 OrderStatusCancelled).2 = StatusOK ∧
  Order_Status <$> orders (UpdateOrderStatus db1 1 OrderStatusCancelled).1 !! 1%N
    = Some OrderStatusCancelled ∧
  Product_Stock <$> products (UpdateOrderStatus db1 1 OrderStatusCancelled).1 !! 1%N = Some 7.
Proof. repeat split; vm_compute; reflexivity. Qed.

(** C4, amended.
    - [CancelOrder] on an order that is neither delivered nor cancelled
      either answers 200, with the order stored as cancelled and the
      stock of every product increased by exactly the quantity the items
      of the order take from it, or answers 500 "Failed to restore stock"
      (a stock would leave the range of the column) with the store as it
      was: never a part of the two.
    - If [CreateOrder] has created an order with positive quantities from
      a store whose stocks are non-negative [int]s, cancelling that order
      succeeds and the products table is again what it was before the
      order was created. *)
Theorem CancelOrder_restores_stock :
  (∀ (db : DB) (id : N) (order : Order),
     orders db !! id = Some order →
     Order_Status order ≠ OrderStatusDelivered →
     Order_Status order ≠ OrderStatusCancelled →
     ((CancelOrder db id).2 = Status StatusOK ∧
      orders (CancelOrder db id).1 !! id = Some (set_Status order OrderStatusCancelled) ∧
      ∀ k, products (CancelOrder db id).1 !! k =
           add_Stock (debited (Order_Items order) k) <$> products db !! k) ∨
     CancelOrder db id =
       (db, JSON StatusInternalServerError (gin_H [("error", JStr "Failed to restore stock")]))) ∧
  (∀ (db db' : DB) (order o : Order),
     stock_ok (products db) →
     positive_items (Order_Items order) →
     CreateOrder db order = (db', JSON StatusCreated (JOrder o)) →
     (CancelOrder db' (Order_ID o)).2 = Status StatusOK ∧
     products (CancelOrder db' (Order_ID o)).1 = products db ∧
     Order_Status <$> orders (CancelOrder db' (Order_ID o)).1 !! Order_ID o
       = Some OrderStatusCancelled).
Proof.
  split.
  - intros db id order Hfind Hd Hc.
    rewrite (CancelOrder_cancellable db id order Hfind Hd Hc).
    destruct (restore_items (products db) (Order_Items order)) as [ps|] eqn:E; [|by right].
    left. cbn. split; [done|]. split; [by rewrite lookup_insert_eq|].
    by apply restore_items_Some.
  - intros db db' order o Hok Hpos Hcreate.
    pose proof (CreateOrder_created_order _ _ _ _ Hcreate)
      as (Hstatus & _ & _ & Hitems & Hstored & _).
    apply CreateOrder_created in Hcreate as (tx & items & total & Hloop & Hc).
    apply create_order_Some in Hc as (Hps & _ & _ & _ & _ & _ & Ho).
    cbn in Ho.
    apply Forall2_requested in Hitems.
    assert (Hpos' : positive_items (Order_Items o))
      by (eapply positive_items_requested; [symmetry; exact Hitems | exact Hpos]).
    destruct (reserve_items_stock _ _ _ _ _ _ Hok Hpos Hloop) as [Hok' Hdebit].
    rewrite <- Hps in Hok', Hdebit.
    assert (Hd : Order_Status o ≠ OrderStatusDelivered) by (by rewrite Hstatus).
    assert (Hcn : Order_Status o ≠ OrderStatusCancelled) by (by rewrite Hstatus).
    rewrite (CancelOrder_cancellable db' (Order_ID o) o Hstored Hd Hcn).
    destruct (restore_items_succeeds (products db') (Order_Items o) Hpos') as [ps' Hr].
    { intros k p Hp. rewrite Hdebit in Hp.
      destruct (products db !! k) as [p0|] eqn:Hk; [|done]. cbn in Hp. simplify_eq.
      destruct (Hok _ _ Hk) as [Hmin Hmax].
      rewrite (debited_requested _ _ k Hitems).
      pose proof (debited_nonneg _ k Hpos).
      specialize (Hok' k (add_Stock (- debited (Order_Items order) k) p0)).
      rewrite Hdebit, Hk in Hok'. specialize (Hok' eq_refl).
      unfold add_Stock, set_Stock in *. cbn [Product_Stock] in *.
      unfold int_min, int_max in *. lia. }
    rewrite Hr. cbn. split; [done|]. split; [|by rewrite lookup_insert_eq].
    apply map_eq. intros k.
    rewrite (restore_items_Some _ _ _ Hr k), Hdebit, (debited_requested _ _ k Hitems).
    destruct (products db !! k) as [p0|]; [|done]. cbn.
    rewrite add_Stock_add, Z.add_opp_diag_l. by rewrite add_Stock_0.
Qed.

(** Product 1 has 10 in stock; an order of 3 leaves 7; cancelling the
    order gives 10 again. *)
Lemma CancelOrder_restores_stock_witness :
  Product_Stock <$> products db1 !! 1%N = Some 7 ∧
  (CancelOrder db1 1).2 = Status StatusOK ∧
  products (CancelOrder db1 1).1 = products db0 ∧
  Order_Status <$> orders (CancelOrder db1 1).1 !! 1%N = Some OrderStatusCancelled.
Proof.
  split; [vm_compute; reflexivity|].
  refine (proj2 CancelOrder_restores_stock db0 db1 (request 1 [(1%N, 3)])
            (mkOrder 1 1 "pending" 28.5%float [mkOrderItem 1 3 9.5%float])
            stock_ok_db0 _ _).
  - repeat constructor.
  - vm_compute. reflexivity.
Defined.

(** ** Scenarios of the specification and of the tests *)

(** Stock 10, price 9.99; three are ordered: total 29.97, stock 7; the
    order is cancelled: status cancelled, stock 10. *)
Example scenario_create_then_cancel :
  let created := CreateOrder db_scenario (request 1 [(1%N, 3)]) in
  let cancelled := CancelOrder created.1 1 in
  created.2 = JSON StatusCreated
                (JOrder (mkOrder 1 1 "pending" (cents 2997) [mkOrderItem 1 3 (cents 999)])) ∧
  Product_Stock <$> products created.1 !! 1%N = Some 7 ∧
  cancelled.2 = Status StatusOK ∧
  Order_Status <$> orders cancelled.1 !! 1%N = Some "cancelled" ∧
  Product_Stock <$> products cancelled.1 !! 1%N = Some 10.
Proof. cbv zeta. split_and!; vm_compute; reflexivity. Qed.

(** A shipped order cannot go back to pending and stays shipped. *)
Example scenario_shipped_to_pending :
  UpdateOrderStatus (db_with_status "shipped") 1 "pending" =
    (db_with_status "shipped",
     JSON StatusBadRequest (gin_H [("error", JStr "Invalid status transition")])).
Proof. vm_compute. reflexivity. Qed.

(** A pending order cannot go directly to delivered. *)
Example scenario_pending_to_delivered :
  UpdateOrderStatus (db_with_status "pending") 1 "delivered" =
    (db_with_status "pending",
     JSON StatusBadRequest (gin_H [("error", JStr "Invalid status transition")])).
Proof. vm_compute. reflexivity. Qed.

(** A delivered order cannot be cancelled, a cancelled one not again. *)
Example scenario_cancel_terminal :
  CancelOrder (db_with_status "delivered") 1 =
    (db_with_status "delivered",
     JSON StatusBadRequest (gin_H [("error", JStr "Cannot cancel delivered order")])) ∧
  CancelOrder (db_with_status "cancelled") 1 =
    (db_with_status "cancelled",
     JSON StatusBadRequest (gin_H [("error", JStr "Order is already cancelled")])).
Proof. split; vm_compute; reflexivity. Qed.

(** An unknown product is answered with 404 and its key. *)
Example scenario_unknown_product :
  CreateOrder db_scenario (request 1 [(9999%N, 1)]) =
    (db_scenario,
     JSON StatusNotFound
       (gin_H [("error", JStr "Product not found"); ("product_id", JInt 9999)])).
Proof. vm_compute. reflexivity. Qed.

(** The same product twice: the second item is checked against what the
    first left (4), and the store is back at 10. *)
Example scenario_same_product_twice :
  CreateOrder db_scenario (request 1 [(1%N, 6); (1%N, 6)]) =
    (db_scenario,
     JSON StatusBadRequest
       (gin_H [("error", JStr "Insufficient stock"); ("product_id", JInt 1);
               ("available", JInt 4); ("requested", JInt 6)])).
Proof. vm_compute. reflexivity. Qed.

(** [product.Stock - item.Quantity] is computed in Go: with 10 in stock
    and a quantity of [-(2^63 - 10)] the difference is [2^63], which
    wraps to the least [int] in the working copy; the total of such an
    order does not fit its column, so the order is refused and the
    stock is back at 10. *)
Example scenario_stock_wraps :
  Product_Stock <$>
    match reserve_items db_scenario [mkOrderItem 1 (- (2 ^ 63 - 10)) 0%float] 0%float with
    | Done (tx, _, _) => products tx !! 1%N
    | Abort _ => None
    end = Some int_min ∧
  CreateOrder db_scenario (request 1 [(1%N, - (2 ^ 63 - 10))]) =
    (db_scenario,
     JSON StatusInternalServerError (gin_H [("error", JStr "Failed to create order")])).
Proof. split; vm_compute; reflexivity. Qed.

(** [float64(item.Quantity)] is exact up to [2^53] only.  Returning
    [2^53] and then taking [2^53 + 1] of a product at 0.01 passes both
    stock checks and takes one; both lines come to the same [float64],
    the total is 0 and is stored as 0.00, while the items of the order
    add up to one hundredth. *)
Example scenario_total_loses_a_cent :
  ∃ db' o,
    CreateOrder db_cent (request 1 [(1%N, - 2 ^ 53); (1%N, 2 ^ 53 + 1)])
      = (db', JSON StatusCreated (JOrder o)) ∧
    Product_Stock <$> products db' !! 1%N = Some 9 ∧
    map requested (Order_Items o) = [(1%N, - 2 ^ 53); (1%N, 2 ^ 53 + 1)] ∧
    hundredths (Order_Total o) = Some 0 ∧
    items_hundredths (Order_Items o) = Some 1.
Proof. eexists _, _. split; [vm_compute; reflexivity|]. split_and!; vm_compute; reflexivity. Qed.

(** * Further properties of the handlers *)

(** ** Final statuses *)

Lemma isValidStatusTransition_terminal (s new : OrderStatus) :
  s = OrderStatusDelivered ∨ s = OrderStatusCancelled →
  isValidStatusTransition s new = false.
Proof.
  intros Hs. apply isValidStatusTransition_not_allowed.
  destruct Hs as [-> | ->]; apply no_transition_from_terminal.
Qed.

(** X1.  An order that is delivered or cancelled stays as it is: every
    [UpdateOrderStatus] on it, whatever the requested status, and every
    [CancelOrder] on it is answered with 400 and leaves the whole store
    unchanged. *)
Theorem terminal_orders_are_final (db : DB) (id : N) (order : Order) :
  orders db !! id = Some order →
  Order_Status order = OrderStatusDelivered ∨ Order_Status order = OrderStatusCancelled →
  (∀ new, (UpdateOrderStatus db id new).1 = db ∧
          code (UpdateOrderStatus db id new).2 = StatusBadRequest) ∧
  (CancelOrder db id).1 = db ∧
  code (CancelOrder db id).2 = StatusBadRequest.
Proof.
  intros Hfind Hs. split.
  - intros new. unfold UpdateOrderStatus.
    destruct (String.eqb new ""); [done|]. rewrite Hfind.
    by rewrite (isValidStatusTransition_terminal _ new Hs).
  - unfold CancelOrder. rewrite Hfind. destruct Hs as [-> | ->]; done.
Qed.

Lemma terminal_orders_are_final_witness :
  (UpdateOrderStatus (db_with_status "delivered") 1 "cancelled").1 = db_with_status "delivered" ∧
  (CancelOrder (db_with_status "delivered") 1).1 = db_with_status "delivered".
Proof.
  pose proof (terminal_orders_are_final (db_with_status "delivered") 1
                (mkOrder 1 1 "delivered" (cents 999) [mkOrderItem 1 1 (cents 999)])) as Hw.
  destruct Hw as (Hu & Hc & _).
  - vm_compute. reflexivity.
  - by left.
  - split; [exact (proj1 (Hu "cancelled")) | exact Hc].
Defined.

(** X2.  Stock is credited at most once: after a [CancelOrder] that was
    answered with 200, a second [CancelOrder] on the same order is
    answered with 400 "Order is already cancelled", and it and every
    [UpdateOrderStatus] on the order leave the store as the first call
    left it. *)
Theorem CancelOrder_only_once (db : DB) (id : N) :
  code (CancelOrder db id).2 = StatusOK →
  CancelOrder (CancelOrder db id).1 id =
    ((CancelOrder db id).1,
     JSON StatusBadRequest (gin_H [("error", JStr "Order is already cancelled")])) ∧
  (∀ new, (UpdateOrderStatus (CancelOrder db id).1 id new).1 = (CancelOrder db id).1).
Proof.
  intros Hok.
  assert (∃ order, orders (CancelOrder db id).1 !! id = Some order ∧
                   Order_Status order = OrderStatusCancelled) as (order & Hfind & Hst).
  { revert Hok. unfold CancelOrder.
    destruct (orders db !! id) as [order|]; [|done].
    destruct (String.eqb _ _); [done|].
    destruct (String.eqb _ _); [done|].
    destruct (restore_items _ _); [|done].
    intros _. cbn. exists (set_Status order OrderStatusCancelled).
    by rewrite lookup_insert_eq. }
  split.
  - unfold CancelOrder at 1. by rewrite Hfind, Hst.
  - intros new. unfold UpdateOrderStatus.
    destruct (String.eqb new ""); [done|]. rewrite Hfind.
    by rewrite (isValidStatusTransition_terminal _ new (or_intror Hst)).
Qed.

Lemma CancelOrder_only_once_witness :
  CancelOrder (CancelOrder db1 1).1 1 =
    ((CancelOrder db1 1).1,
     JSON StatusBadRequest (gin_H [("error", JStr "Order is already cancelled")])).
Proof. apply (CancelOrder_only_once db1 1). vm_compute. reflexivity. Defined.

(** ** No way back *)

Lemma isValidStatusTransition_rank (a b : OrderStatus) :
  isValidStatusTransition a b = true → (status_rank a < status_rank b)%nat.
Proof.
  intros Hv. apply isValidStatusTransition_allowed in Hv.
  unfold allowed, transition_table in Hv. cbn in Hv.
  repeat (destruct Hv as [Hv|Hv]); try done; injection Hv as <- <-; vm_compute; lia.
Qed.

Lemma status_rank_bound (s : OrderStatus) : (status_rank s ≤ 3)%nat.
Proof. unfold status_rank. repeat (destruct (String.eqb _ _)); lia. Qed.

Lemma valid_chain_length (a : OrderStatus) (l : list OrderStatus) :
  valid_chain (a :: l) = true → (length (a :: l) + status_rank a ≤ 4)%nat.
Proof.
  revert a. induction l as [|b l IH]; intros a Hc.
  - pose proof (status_rank_bound a). cbn. lia.
  - cbn [valid_chain] in Hc. apply andb_true_iff in Hc as [Hab Hrest].
    apply isValidStatusTransition_rank in Hab. specialize (IH b Hrest).
    cbn [length] in *. lia.
Qed.

(** X3.  The transitions [isValidStatusTransition] accepts never lead
    back: none of them ends in pending, none starts and ends in the same
    status, and a sequence of statuses in which each may follow the one
    before has at most four members, so the status of an order changes
    at most three times. *)
Theorem transitions_never_lead_back :
  (∀ s, isValidStatusTransition s OrderStatusPending = false) ∧
  (∀ s, isValidStatusTransition s s = false) ∧
  (∀ l, valid_chain l = true → (length l ≤ 4)%nat).
Proof.
  split; [|split].
  - intros s. destruct (isValidStatusTransition s OrderStatusPending) eqn:E; [|done].
    apply isValidStatusTransition_rank in E. vm_compute in E. lia.
  - intros s. destruct (isValidStatusTransition s s) eqn:E; [|done].
    apply isValidStatusTransition_rank in E. lia.
  - intros [|a l] Hc; [cbn; lia|].
    pose proof (valid_chain_length a l Hc). lia.
Qed.

Lemma transitions_never_lead_back_witness :
  valid_chain ["pending"; "paid"; "shipped"; "delivered"] = true ∧
  (length ["pending"; "paid"; "shipped"; "delivered"] ≤ 4)%nat.
Proof.
  split; [vm_compute; reflexivity|].
  apply (proj2 (proj2 transitions_never_lead_back)). vm_compute. reflexivity.
Defined.

(** ** Statuses the table does not know *)

Lemma isValidStatusTransition_known (a b : OrderStatus) :
  isValidStatusTransition a b = true → known_status a ∧ known_status b.
Proof.
  intros Hv. apply isValidStatusTransition_allowed in Hv.
  unfold allowed, transition_table in Hv. cbn in Hv. unfold known_status.
  repeat (destruct Hv as [Hv|Hv]); try done; injection Hv as <- <-; cbn; tauto.
Qed.

(** X4.  For a status string outside the five constants (the frontend's
    "processing" is one): no [UpdateOrderStatus] to it ever changes the
    store; an order stored with it is refused every [UpdateOrderStatus];
    and [CancelOrder] on such an order is not refused with 400, it
    cancels the order (or fails with 500 in the stock loop). *)
Theorem unknown_status_is_outside_the_table (db : DB) (id : N) (s : OrderStatus) :
  ¬ known_status s →
  (UpdateOrderStatus db id s).1 = db ∧
  code (UpdateOrderStatus db id s).2 ≠ StatusOK ∧
  (∀ order, orders db !! id = Some order → Order_Status order = s →
     (∀ new, (UpdateOrderStatus db id new).1 = db ∧
             code (UpdateOrderStatus db id new).2 = StatusBadRequest) ∧
     (code (CancelOrder db id).2 = StatusOK ∧
      Order_Status <$> orders (CancelOrder db id).1 !! id = Some OrderStatusCancelled
      ∨ CancelOrder db id =
          (db, JSON StatusInternalServerError
                 (gin_H [("error", JStr "Failed to restore stock")])))).
Proof.
  intros Hs.
  assert (Hto : ∀ a, isValidStatusTransition a s = false).
  { intros a. destruct (isValidStatusTransition a s) eqn:E; [|done].
    by apply isValidStatusTransition_known in E as [_ ?]. }
  assert (Hfrom : ∀ b, isValidStatusTransition s b = false).
  { intros b. destruct (isValidStatusTransition s b) eqn:E; [|done].
    by apply isValidStatusTransition_known in E as [? _]. }
  split_and!.
  - unfold UpdateOrderStatus. destruct (String.eqb s ""); [done|].
    destruct (orders db !! id) as [order|]; [|done]. by rewrite Hto.
  - unfold UpdateOrderStatus. destruct (String.eqb s ""); [done|].
    destruct (orders db !! id) as [order|]; [|done]. by rewrite Hto.
  - intros order Hfind Hst. split.
    + intros new. unfold UpdateOrderStatus.
      destruct (String.eqb new ""); [done|]. rewrite Hfind, Hst. by rewrite Hfrom.
    + assert (Hd : Order_Status order ≠ OrderStatusDelivered).
      { rewrite Hst. intros ->. apply Hs. unfold known_status. cbn. tauto. }
      assert (Hc : Order_Status order ≠ OrderStatusCancelled).
      { rewrite Hst. intros ->. apply Hs. unfold known_status. cbn. tauto. }
      rewrite (CancelOrder_cancellable db id order Hfind Hd Hc).
      destruct (restore_items _ _); [|by right].
      left. cbn. by rewrite lookup_insert_eq.
Qed.

Lemma unknown_status_is_outside_the_table_witness :
  (UpdateOrderStatus (db_with_status "pending") 1 "processing").1 = db_with_status "pending" ∧
  code (UpdateOrderStatus (db_with_status "pending") 1 "processing").2 ≠ StatusOK.
Proof.
  pose proof (unknown_status_is_outside_the_table (db_with_status "pending") 1 "processing")
    as Hw.
  destruct Hw as (H1 & H2 & _).
  - unfold known_status. cbn. intros Hx. repeat (destruct Hx as [Hx|Hx]); done.
  - split; [exact H1 | exact H2].
Defined.

(** ** When an order is accepted *)

Lemma reserve_items_succeeds (tx : DB) (items : list OrderItem) (t : float) :
  positive_items items →
  (∀ it, In it items → is_Some (products tx !! Item_ProductID it)) →
  (∀ k p, products tx !! k = Some p → debited items k ≤ Product_Stock p ≤ int_max) →
  ∃ tx' items' t', reserve_items tx items t = Done (tx', items', t').
Proof.
  revert tx t. induction items as [|item rest IH]; intros tx t Hpos Hex Hfit.
  - by exists tx, [], t.
  - apply Forall_cons in Hpos as [Hq Hpos].
    destruct (Hex item (or_introl eq_refl)) as [p Hp].
    destruct (Hfit _ _ Hp) as [Hle Hmax]. cbn [debited] in Hle.
    rewrite decide_True in Hle by done.
    pose proof (debited_nonneg rest (Item_ProductID item) Hpos) as Hnn.
    rewrite reserve_items_cons. unfold reserve. rewrite Hp.
    destruct (Z.ltb_spec (Product_Stock p) (Item_Quantity item)) as [Hlt|_]; [lia|].
    rewrite wrap_int_id by (unfold is_int, int_min, int_max in *; lia).
    edestruct (IH (set_products tx
                     (<[Item_ProductID item :=
                          set_Stock p (Product_Stock p - Item_Quantity item)]> (products tx))))
      as (tx' & items' & t' & ->); [done| | |by eexists _, _, _].
    + intros it Hin. cbn. destruct (decide (Item_ProductID item = Item_ProductID it)) as [<-|Hne].
      * rewrite lookup_insert_eq. eauto.
      * rewrite lookup_insert_ne by done. apply Hex. by right.
    + intros k p'. cbn [products set_products].
      destruct (decide (Item_ProductID item = k)) as [<-|Hne].
      * rewrite lookup_insert_eq. intros ?; simplify_eq. cbn. lia.
      * rewrite lookup_insert_ne by done. intros Hk.
        specialize (Hfit _ _ Hk). cbn [debited] in Hfit.
        rewrite decide_False in Hfit by done. lia.
Qed.

(** The loop prices every item at the row of its product and adds the
    lines up: its total is the total of the request at the prices of the
    store. *)
Lemma reserve_items_quoted (tx tx' : DB) (items items' : list OrderItem) (t' : float) :
  reserve_items tx items 0%float = Done (tx', items', t') →
  items' = map (quoted (products tx)) items ∧ t' = quoted_total (products tx) items.
Proof.
  intros Hr. assert (Hi : items' = map (quoted (products tx)) items).
  { pose proof (reserve_items_items _ _ _ _ _ _ Hr) as Hall. clear Hr.
    induction Hall as [|it it' l l' (Hreq & p & Hp & Hprice) _ IH]; [done|].
    cbn [map]. f_equal; [|done].
    unfold quoted. rewrite Hp. unfold requested in Hreq.
    destruct it, it'. cbn in *. by simplify_eq. }
  split; [done|]. unfold quoted_total. rewrite <- Hi. by eapply reserve_items_total.
Qed.

(** X5.  From stocks that are non-negative [int]s, a bound request with
    positive quantities that leaves the key to the store is answered
    with 201 exactly when every product it names exists, for every
    product the quantities the request asks of it add up to no more
    than its stock, and the total of the request at the prices of the
    store fits the [decimal(10,2)] column. *)
Theorem CreateOrder_accepts_iff (db : DB) (order : Order) :
  bindable order →
  stock_ok (products db) →
  positive_items (Order_Items order) →
  Order_ID order = 0%N →
  code (CreateOrder db order).2 = StatusCreated ↔
    (∀ it, In it (Order_Items order) → is_Some (products db !! Item_ProductID it)) ∧
    (∀ k p, products db !! k = Some p → debited (Order_Items order) k ≤ Product_Stock p) ∧
    is_Some (decimal_10_2 (quoted_total (products db) (Order_Items order))).
Proof.
  intros _ Hok Hpos Hid. rewrite CreateOrder_unfold. split.
  - destruct (reserve_items db (Order_Items order) 0%float) as [[[tx items] total]|r] eqn:E.
    + intros Hc. split_and!.
      * intros it Hin.
        destruct (Forall2_In_l _ _ _ _ (reserve_items_items _ _ _ _ _ _ E) Hin)
          as (it' & _ & _ & p & Hp & _).
        by exists p.
      * intros k p Hp.
        destruct (reserve_items_stock _ _ _ _ _ _ Hok Hpos E) as [Hok' Hdebit].
        specialize (Hok' k (add_Stock (- debited (Order_Items order) k) p)).
        rewrite Hdebit, Hp in Hok'. specialize (Hok' eq_refl).
        unfold add_Stock in Hok'. cbn in Hok'. lia.
      * destruct (create_order tx _) as [[tx' o]|] eqn:Ec; [|done].
        apply create_order_Some in Ec as (_ & _ & _ & _ & _ & Ht & _). cbn in Ht.
        apply reserve_items_quoted in E as [_ <-]. by eexists.
    + intros Hc. apply reserve_items_Abort in E. cbn in Hc. rewrite Hc in E. by destruct E.
  - intros (Hex & Hfit & [t Ht]).
    destruct (reserve_items_succeeds db (Order_Items order) 0%float Hpos Hex)
      as (tx & items & total & E).
    { intros k p Hp. split; [by eapply Hfit | by eapply Hok]. }
    rewrite E. apply reserve_items_quoted in E as [_ ->].
    unfold create_order, with_server_fields. cbn [Order_ID Order_Total]. by rewrite Ht, Hid.
Qed.

Lemma CreateOrder_accepts_iff_witness :
  code (CreateOrder db0 (request 1 [(1%N, 4); (2%N, 4); (1%N, 6)])).2 = StatusCreated ↔
    (∀ it, In it (Order_Items (request 1 [(1%N, 4); (2%N, 4); (1%N, 6)])) →
           is_Some (products db0 !! Item_ProductID it)) ∧
    (∀ k p, products db0 !! k = Some p →
            debited (Order_Items (request 1 [(1%N, 4); (2%N, 4); (1%N, 6)])) k ≤ Product_Stock p) ∧
    is_Some (decimal_10_2
               (quoted_total (products db0)
                  (Order_Items (request 1 [(1%N, 4); (2%N, 4); (1%N, 6)])))).
Proof.
  apply (CreateOrder_accepts_iff db0 (request 1 [(1%N, 4); (2%N, 4); (1%N, 6)])).
  - unfold bindable, is_uint, is_int, int_min, int_max. cbn.
    split; [lia|]. split; [lia|]. repeat constructor; cbn; lia.
  - exact stock_ok_db0.
  - repeat constructor.
  - reflexivity.
Defined.

(** X6.  From stocks that are non-negative [int]s, an order with positive
    quantities that [CreateOrder] creates takes from every product
    exactly the quantities its items ask of it, and nothing else of a
    product row changes; the stocks are again non-negative. *)
Theorem CreateOrder_debits_exactly (db db' : DB) (order o : Order) :
  stock_ok (products db) →
  positive_items (Order_Items order) →
  CreateOrder db order = (db', JSON StatusCreated (JOrder o)) →
  stock_ok (products db') ∧
  (∀ k, products db' !! k = add_Stock (- debited (Order_Items o) k) <$> products db !! k) ∧
  (∀ k, debited (Order_Items o) k = debited (Order_Items order) k).
Proof.
  intros Hok Hpos Hcreate.
  pose proof (CreateOrder_created_order _ _ _ _ Hcreate) as (_ & _ & _ & Hitems & _).
  apply Forall2_requested in Hitems.
  apply CreateOrder_created in Hcreate as (tx & items & total & Hloop & Hc).
  apply create_order_Some in Hc as (Hps & _).
  destruct (reserve_items_stock _ _ _ _ _ _ Hok Hpos Hloop) as [Hok' Hdebit].
  rewrite Hps. split; [done|]. split.
  - intros k. by rewrite Hdebit, (debited_requested _ _ k Hitems).
  - intros k. by apply debited_requested.
Qed.

Lemma CreateOrder_debits_exactly_witness :
  stock_ok (products db1) ∧
  (∀ k, products db1 !! k =
        add_Stock (- debited [mkOrderItem 1 3 9.5%float] k) <$> products db0 !! k).
Proof.
  pose proof (CreateOrder_debits_exactly db0 db1 (request 1 [(1%N, 3)])
                (mkOrder 1 1 "pending" 28.5%float [mkOrderItem 1 3 9.5%float])
                stock_ok_db0) as Hw.
  destruct Hw as (H1 & H2 & _).
  - repeat constructor.
  - vm_compute. reflexivity.
  - split; [exact H1 | exact H2].
Defined.

(** ** Orders placed one after the other *)

Lemma CreateOrder_stock_step (db : DB) (order : Order) :
  stock_ok (products db) →
  positive_items (Order_Items order) →
  stock_ok (products (CreateOrder db order).1) ∧
  ∀ k, 0 ≤ match body (CreateOrder db order).2 with
           | JOrder o => debited (Order_Items o) k
           | _ => 0
           end ∧
       products (CreateOrder db order).1 !! k =
         add_Stock (- match body (CreateOrder db order).2 with
                      | JOrder o => debited (Order_Items o) k
                      | _ => 0
                      end) <$> products db !! k.
Proof.
  intros Hok Hpos.
  assert (Hsame : ∀ k, products db !! k = add_Stock (- 0) <$> products db !! k).
  { intros k. destruct (products db !! k) as [p|]; [|done]. cbn. by rewrite add_Stock_0. }
  destruct (CreateOrder db order) as [db' [c b]] eqn:Hc.
  destruct (decide (c = StatusCreated)) as [->|Hne].
  - assert (∃ o, b = JOrder o) as [o ->].
    { revert Hc. rewrite CreateOrder_unfold.
      destruct (reserve_items db (Order_Items order) 0%float) as [[[tx items] total]|r] eqn:E.
      - destruct (create_order tx _) as [[tx' o']|]; [|done].
        unfold JSON. intros ?; simplify_eq. eauto.
      - intros ?; simplify_eq. apply reserve_items_Abort in E. cbn in E. by destruct E. }
    pose proof (CreateOrder_created_order _ _ _ _ Hc) as (_ & _ & _ & Hitems & _).
    apply Forall2_requested in Hitems.
    apply CreateOrder_created in Hc as (tx & items & total & Hloop & Hcr).
    apply create_order_Some in Hcr as (Hps & _).
    destruct (reserve_items_stock _ _ _ _ _ _ Hok Hpos Hloop) as [Hok' Hdebit].
    cbn. rewrite Hps. split; [done|]. intros k.
    rewrite (debited_requested _ _ k Hitems). split; [by apply debited_nonneg | apply Hdebit].
  - assert (Hdb : db' = db).
    { pose proof (CreateOrder_rollback db order) as Hr. rewrite Hc in Hr. by apply Hr. }
    assert (Hb : ∃ fs, b = gin_H fs).
    { pose proof (CreateOrder_errors db order) as He. rewrite Hc in He.
      cbn in He. destruct (He Hne) as (msg & rest & Hb & _). eauto. }
    destruct Hb as [fs ->]. subst db'. cbn. split; [done|]. intros k. split; [lia|apply Hsame].
Qed.

(** The stocks after calls handled one after the other. *)
Lemma create_all_stock (db : DB) (reqs : list Order) :
  stock_ok (products db) →
  Forall (λ r, positive_items (Order_Items r)) reqs →
  stock_ok (products (create_all db reqs)) ∧
  ∀ k, 0 ≤ debited_all db reqs k ∧
       products (create_all db reqs) !! k =
         add_Stock (- debited_all db reqs k) <$> products db !! k.
Proof.
  intros Hok Hpos. revert db Hok. induction Hpos as [|r rest Hr _ IH]; intros db Hok.
  - split; [done|]. intros k. split; [done|]. cbn.
    destruct (products db !! k) as [p|]; [|done]. cbn. by rewrite add_Stock_0.
  - destruct (CreateOrder_stock_step db r Hok Hr) as [Hok1 Hstep].
    destruct (IH _ Hok1) as [Hok2 Hrest].
    split; [exact Hok2|]. intros k.
    destruct (Hstep k) as [Hnn1 Heq1]. destruct (Hrest k) as [Hnn2 Heq2].
    cbn [debited_all]. split; [lia|].
    change (create_all db (r :: rest)) with (create_all (CreateOrder db r).1 rest).
    rewrite Heq2, Heq1.
    destruct (products db !! k) as [p|]; [|done]. cbn.
    rewrite add_Stock_add. do 2 f_equal; lia.
Qed.

(** X7.  Requests with positive quantities handled one after the other,
    from stocks that are non-negative [int]s: the stocks stay
    non-negative, every product ends with its stock less what the orders
    that were created take from it, and so the created orders never take
    more of a product than it had. *)
Theorem create_all_never_oversells (db : DB) (reqs : list Order) :
  stock_ok (products db) →
  Forall (λ r, positive_items (Order_Items r)) reqs →
  stock_ok (products (create_all db reqs)) ∧
  (∀ k, products (create_all db reqs) !! k =
        add_Stock (- debited_all db reqs k) <$> products db !! k) ∧
  (∀ k p, products db !! k = Some p → 0 ≤ debited_all db reqs k ≤ Product_Stock p).
Proof.
  intros Hok Hpos.
  destruct (create_all_stock db reqs Hok Hpos) as [Hok' Hall]. split; [done|]. split.
  - intros k. apply Hall.
  - intros k p Hp. destruct (Hall k) as [Hnn Heq]. split; [done|].
    specialize (Hok' k (add_Stock (- debited_all db reqs k) p)).
    rewrite Heq, Hp in Hok'. specialize (Hok' eq_refl).
    unfold add_Stock in Hok'. cbn in Hok'. lia.
Qed.

(** Three requests for 6, 6 and 4 of a stock of 10: the first and the
    third are created, the second is refused. *)
Lemma create_all_never_oversells_witness :
  debited_all db0 [request 1 [(1%N, 6)]; request 2 [(1%N, 6)]; request 3 [(1%N, 4)]] 1 = 10 ∧
  stock_ok (products
    (create_all db0 [request 1 [(1%N, 6)]; request 2 [(1%N, 6)]; request 3 [(1%N, 4)]])).
Proof.
  split; [vm_compute; reflexivity|].
  refine (proj1 (create_all_never_oversells db0
            [request 1 [(1%N, 6)]; request 2 [(1%N, 6)]; request 3 [(1%N, 4)]]
            stock_ok_db0 _)).
  repeat constructor.
Defined.

(** ** Calls that overlap *)

Lemma view_begin (db : DB) (order : Order) : view db (begin order) = db.
Proof. unfold view. cbn. rewrite (left_id_L ∅ (∪)). by destruct db. Qed.

Lemma locked_free (others : list Call) (k : N) :
  Forall (λ c, call_writes c = ∅) others → locked others k = false.
Proof.
  unfold locked. induction 1 as [|c others Hc _ IH]; [done|].
  cbn. rewrite IH, Hc, lookup_empty, orb_false_r.
  apply bool_decide_eq_false. by intros [? ?].
Qed.

Lemma delete_insert_same {A : Type} (l : list A) (i : nat) (x : A) :
  delete i (<[i := x]> l) = delete i l.
Proof.
  revert i. induction l as [|y l IH]; intros [|i]; try done.
  cbn. f_equal. apply IH.
Qed.

Lemma run_app (s1 s2 : list nat) (db : DB) (calls : list Call) :
  run (s1 ++ s2) db calls = run s2 (run s1 db calls).1 (run s1 db calls).2.
Proof.
  revert db calls. induction s1 as [|i s1 IH]; intros db calls; [done|].
  cbn [app run]. destruct (calls !! i) as [c|]; [|apply IH].
  destruct (statement db (delete i calls) c) as [db' c']. apply IH.
Qed.

Lemma run_cons (i : nat) (sched : list nat) (db : DB) (calls : list Call) (c : Call) :
  calls !! i = Some c →
  run (i :: sched) db calls =
    run sched (statement db (delete i calls) c).1
        (<[i := (statement db (delete i calls) c).2]> calls).
Proof. intros Hi. cbn [run]. rewrite Hi. by destruct (statement _ _ _). Qed.

(** A call that has answered does nothing more. *)
Lemma run_answered (n i : nat) (db : DB) (calls : list Call) (c : Call) :
  calls !! i = Some c → is_Some (call_answer c) →
  run (repeat i n) db calls = (db, calls).
Proof.
  intros Hi [r Hr]. induction n as [|n IH]; [done|].
  cbn [repeat run]. rewrite Hi. unfold statement. rewrite Hr.
  by rewrite list_insert_id.
Qed.

Lemma outcome_begin (db : DB) (order : Order) : outcome db (begin order) = CreateOrder db order.
Proof. unfold outcome. by rewrite view_begin. Qed.

Lemma run_alone (todo : list OrderItem) :
  ∀ (i : nat) (db : DB) (calls : list Call) (c : Call),
    call_todo c = todo →
    calls !! i = Some c →
    call_answer c = None →
    call_phase c = AtFirst →
    Forall (λ c', call_writes c' = ∅) (delete i calls) →
    ∃ c', run (repeat i (2 * length todo + 1)) db calls
            = ((outcome db c).1, <[i := c']> calls) ∧
          call_answer c' = Some (outcome db c).2 ∧
          call_writes c' = ∅.
Proof.
  induction todo as [|item rest IH]; intros i db calls c Htodo Hi Hans Hph Hfree.
  - cbn [length Nat.mul Nat.add repeat run]. rewrite Hi.
    unfold statement, outcome. rewrite Hans, Hph, Htodo. cbn [reserve_items].
    rewrite app_nil_r.
    destruct (create_order (view db c) _) as [[db' o]|]; eexists; (split; [reflexivity|]); done.
  - replace (2 * length (item :: rest) + 1)%nat with (S (S (2 * length rest + 1))) by (cbn; lia).
    cbn [repeat]. unfold outcome. rewrite Htodo, reserve_items_cons.
    assert (Hlen : (i < length calls)%nat) by (by eapply lookup_lt_Some).
    rewrite (run_cons _ _ _ _ _ Hi). unfold statement at 1 2. rewrite Hans, Hph, Htodo.
    destruct (reserve (view db c) item) as [[tx1 product]|r] eqn:Hres; cbn [fst snd].
    + apply reserve_Done in Hres as (Hrow & _ & ->).
      rewrite (run_cons _ _ _ _ (set_phase c (AtUpdate product)))
        by (by apply list_lookup_insert_eq).
      rewrite delete_insert_same, list_insert_insert_eq.
      unfold statement. cbn [set_phase call_answer call_phase call_todo].
      rewrite Hans, Htodo, (locked_free _ _ Hfree).
      change (view db (set_phase c (AtUpdate product))) with (view db c).
      rewrite Hrow. cbn [fst snd set_phase call_order call_items call_total call_writes].
      set (c2 := {| call_order := call_order c; call_todo := rest;
                    call_items := call_items c ++ [set_Price item (Product_Price product)];
                    call_total :=
                      PrimFloat.add (call_total c)
                        (PrimFloat.mul (Product_Price product) (float64 (Item_Quantity item)));
                    call_writes :=
                      <[Item_ProductID item :=
                          set_Stock product
                            (wrap_int (Product_Stock product - Item_Quantity item))]>
                        (call_writes c);
                    call_phase := AtFirst; call_answer := None |}).
      destruct (IH i db (<[i := c2]> calls) c2) as (c' & Hrun & Hanswer & Hw); try done.
      { by apply list_lookup_insert_eq. }
      { by rewrite delete_insert_same. }
      exists c'. rewrite Hrun, list_insert_insert_eq.
      assert (Hout : outcome db c2 =
        match reserve_items
                (set_products (view db c)
                   (<[Item_ProductID item :=
                        set_Stock product (wrap_int (Product_Stock product - Item_Quantity item))]>
                      (products (view db c)))) rest
                (PrimFloat.add (call_total c)
                   (PrimFloat.mul (Product_Price product) (float64 (Item_Quantity item)))) with
        | Abort r => (db, r)
        | Done (tx2, rest', t') =>
            match create_order tx2
                    (with_server_fields (call_order c)
                       (call_items c ++ set_Price item (Product_Price product) :: rest') t') with
            | None => (db, JSON StatusInternalServerError (gin_H [("error", JStr "Failed to create order")]))
            | Some (tx', o) => (tx', JSON StatusCreated (JOrder o))
            end
        end).
      { unfold outcome. subst c2. cbn [call_todo call_total call_order call_items].
        unfold view at 1. cbn [call_writes]. rewrite <- insert_union_l.
        change (set_products db ?ps) with (set_products (view db c) ps) at 1.
        destruct (reserve_items _ rest _) as [[[tx2 rest'] t']|r]; [|done].
        by rewrite <- app_assoc. }
      rewrite Hanswer, Hout.
      destruct (reserve_items _ rest _) as [[[tx2 rest'] t']|r]; [|done].
      done.
    + change (i :: repeat i ?n) with (repeat i (S n)).
      rewrite (run_answered _ i db (<[i := finish c r]> calls) (finish c r)).
      * eexists. split; [reflexivity|]. done.
      * by apply list_lookup_insert_eq.
      * by eexists.
Qed.

(** Calls that run one after the other come to what [CreateOrder]
    comes to, request by request. *)
Lemma run_serial (reqs : list Order) :
  ∀ (pre : list Call) (db : DB),
    Forall (λ c, call_writes c = ∅) pre →
    ∃ finished,
      run (serial_from (length pre) reqs) db (pre ++ (begin <$> reqs))
        = (create_all db reqs, pre ++ finished) ∧
      call_answer <$> finished = Some <$> answers db reqs.
Proof.
  induction reqs as [|r rest IH]; intros pre db Hpre.
  - exists []. by cbn.
  - cbn [serial_from fmap list_fmap]. rewrite run_app.
    destruct (run_alone (Order_Items r) (length pre) db
                (pre ++ begin r :: (begin <$> rest)) (begin r))
      as (c' & Hrun & Hanswer & Hw); try done.
    { by apply list_lookup_middle. }
    { rewrite delete_middle. apply Forall_app. split; [done|].
      apply Forall_fmap. by apply Forall_true. }
    unfold statements. rewrite Hrun. cbn [fst snd].
    rewrite outcome_begin in Hanswer. rewrite outcome_begin.
    rewrite insert_app_r_alt, Nat.sub_diag by done. cbn [insert list_insert].
    destruct (IH (pre ++ [c']) (CreateOrder db r).1) as (finished & Hrest & Hanswers).
    { apply Forall_app. split; [done|]. by constructor. }
    rewrite length_app, Nat.add_1_r, <- app_assoc in Hrest. cbn [app] in Hrest.
    exists (c' :: finished). rewrite Hrest, <- app_assoc. cbn [app].
    split; [done|]. cbn [answers]. rewrite !fmap_cons. by rewrite Hanswer, Hanswers.
Qed.

(** C9 as stated has two calls that overlap never both succeed when
    they jointly ask for more than there is.  Nothing in [CreateOrder]
    makes the check and the decrement one step: [tx.First] reads
    without a lock, the check is done in Go, and [Update] writes the
    difference computed from the stock that was read.  Stock 5 and two
    requests for 3: both read 5 and pass the check; the first writes 2,
    stores its order and commits; then the second writes 2 as well,
    stores its order and commits.  Both are answered 201, the orders
    take 6, and the stock is 2. *)
Lemma CreateOrder_overlapping_calls_oversell :
  (run [0; 1; 0; 0; 1; 1]%nat db_five
     [begin (request 1 [(1%N, 3)]); begin (request 2 [(1%N, 3)])]).1 =
    {| products := <[1%N := sample_product 9.5%float 2]> ∅;
       orders := <[2%N := mkOrder 2 2 "pending" 28.5%float [mkOrderItem 1 3 9.5%float]]>
                   (<[1%N := mkOrder 1 1 "pending" 28.5%float [mkOrderItem 1 3 9.5%float]]> ∅) |} ∧
  call_answer <$>
    (run [0; 1; 0; 0; 1; 1]%nat db_five
       [begin (request 1 [(1%N, 3)]); begin (request 2 [(1%N, 3)])]).2 =
    [Some (JSON StatusCreated
             (JOrder (mkOrder 1 1 "pending" 28.5%float [mkOrderItem 1 3 9.5%float])));
     Some (JSON StatusCreated
             (JOrder (mkOrder 2 2 "pending" 28.5%float [mkOrderItem 1 3 9.5%float])))] ∧
  Product_Stock <$> products db_five !! 1%N = Some 5 ∧
  debited [mkOrderItem 1 3 9.5%float] 1 + debited [mkOrderItem 1 3 9.5%float] 1 = 6.
Proof. split_and!; vm_compute; reflexivity. Qed.

(** C9, amended.  What [CreateOrder] gives for stock is this.  Bound
    requests with positive quantities whose calls do not overlap, each
    running from its first statement to its commit before the next
    begins, from stocks that are non-negative [int]s: the store and the
    answers are those of [CreateOrder] applied request by request, the
    stocks stay non-negative, and the orders created take of no product
    more than it had.  And in any schedule, a call whose [tx.First]
    finds less stock than the item asks for is answered 400
    "Insufficient stock" and commits nothing.  (Calls that overlap can
    oversell, see above.) *)
Theorem CreateOrder_calls_in_turn_never_oversell (db : DB) (reqs : list Order) :
  stock_ok (products db) →
  Forall bindable reqs →
  Forall (λ r, positive_items (Order_Items r)) reqs →
  (run (serial reqs) db (begin <$> reqs)).1 = create_all db reqs ∧
  call_answer <$> (run (serial reqs) db (begin <$> reqs)).2 = Some <$> answers db reqs ∧
  stock_ok (products (create_all db reqs)) ∧
  (∀ k p, products db !! k = Some p → 0 ≤ debited_all db reqs k ≤ Product_Stock p) ∧
  (∀ (committed : DB) (others : list Call) (c : Call) (item : OrderItem)
     (rest : list OrderItem) (p : Product),
     call_answer c = None → call_phase c = AtFirst → call_todo c = item :: rest →
     products (view committed c) !! Item_ProductID item = Some p →
     Product_Stock p < Item_Quantity item →
     statement committed others c =
       (committed,
        finish c (JSON StatusBadRequest
                    (gin_H [("error", JStr "Insufficient stock");
                            ("product_id", JInt (Z.of_N (Item_ProductID item)));
                            ("available", JInt (Product_Stock p));
                            ("requested", JInt (Item_Quantity item))])))).
Proof.
  intros Hok _ Hpos.
  destruct (run_serial reqs [] db) as (finished & Hrun & Hanswers); [done|].
  cbn [length app] in Hrun. unfold serial. rewrite Hrun. cbn [fst snd].
  destruct (create_all_stock db reqs Hok Hpos) as [Hok' Hall].
  split_and!; try done.
  - intros k p Hp. destruct (Hall k) as [Hnn Heq]. split; [done|].
    specialize (Hok' k (add_Stock (- debited_all db reqs k) p)).
    rewrite Heq, Hp in Hok'. specialize (Hok' eq_refl).
    unfold add_Stock in Hok'. cbn in Hok'. lia.
  - intros committed others c item rest p Hans Hph Htodo Hrow Hlt.
    unfold statement. rewrite Hans, Hph, Htodo. unfold reserve. rewrite Hrow.
    apply Z.ltb_lt in Hlt. by rewrite Hlt.
Qed.

(** Requests for 6, 6 and 4 of a stock of 10, one after the other: the
    first and the third are created, the second is refused. *)
Lemma CreateOrder_calls_in_turn_never_oversell_witness :
  code <$> answers db0 [request 1 [(1%N, 6)]; request 2 [(1%N, 6)]; request 3 [(1%N, 4)]]
    = [StatusCreated; StatusBadRequest; StatusCreated] ∧
  (run (serial [request 1 [(1%N, 6)]; request 2 [(1%N, 6)]; request 3 [(1%N, 4)]]) db0
     (begin <$> [request 1 [(1%N, 6)]; request 2 [(1%N, 6)]; request 3 [(1%N, 4)]])).1
    = create_all db0 [request 1 [(1%N, 6)]; request 2 [(1%N, 6)]; request 3 [(1%N, 4)]] ∧
  0 ≤ debited_all db0 [request 1 [(1%N, 6)]; request 2 [(1%N, 6)]; request 3 [(1%N, 4)]] 1
    ≤ Product_Stock (sample_product 9.5%float 10).
Proof.
  split; [vm_compute; reflexivity|].
  pose proof (CreateOrder_calls_in_turn_never_oversell db0
                [request 1 [(1%N, 6)]; request 2 [(1%N, 6)]; request 3 [(1%N, 4)]]
                stock_ok_db0) as Hw.
  destruct Hw as (Hrun & _ & _ & Hdebit & _).
  - unfold bindable, is_uint, is_int, int_min, int_max.
    repeat constructor; cbn; lia.
  - repeat constructor.
  - split; [exact Hrun|]. apply Hdebit. reflexivity.
Defined.

(** ** Keys and rows the order handlers leave alone *)

(** X8.  A request that carries the key of an order that exists is never
    stored over it: the answer is not 201 and the store, with the stock
    the loop had taken in the working copy, is as before. *)
Theorem CreateOrder_never_overwrites (db : DB) (order existing : Order) :
  Order_ID order ≠ 0%N →
  orders db !! Order_ID order = Some existing →
  (CreateOrder db order).1 = db ∧
  code (CreateOrder db order).2 ≠ StatusCreated.
Proof.
  intros Hid Hfind. rewrite CreateOrder_unfold.
  destruct (reserve_items db (Order_Items order) 0%float) as [[[tx items] total]|r] eqn:E.
  - unfold create_order, with_server_fields. cbn [Order_ID Order_Total].
    destruct (decimal_10_2 total); [|done].
    apply N.eqb_neq in Hid. rewrite Hid.
    rewrite (reserve_items_orders _ _ _ _ _ _ E), Hfind. by cbn.
  - cbn. split; [done|]. apply reserve_items_Abort in E. intros Hc. rewrite Hc in E.
    by destruct E.
Qed.

Lemma CreateOrder_never_overwrites_witness :
  (CreateOrder db1 (mkOrder 1 2 "" 0%float [mkOrderItem 1 2 0%float])).1 = db1 ∧
  code (CreateOrder db1 (mkOrder 1 2 "" 0%float [mkOrderItem 1 2 0%float])).2 ≠ StatusCreated.
Proof.
  apply (CreateOrder_never_overwrites db1 (mkOrder 1 2 "" 0%float [mkOrderItem 1 2 0%float])
           (mkOrder 1 1 "pending" 28.5%float [mkOrderItem 1 3 9.5%float])).
  - discriminate.
  - vm_compute. reflexivity.
Defined.

Lemma reserve_items_name_price
    (tx tx' : DB) (items items' : list OrderItem) (t t' : float) (k : N) :
  reserve_items tx items t = Done (tx', items', t') →
  (λ p, (Product_Name p, Product_Price p)) <$> products tx' !! k =
  (λ p, (Product_Name p, Product_Price p)) <$> products tx !! k.
Proof.
  revert tx t items'. induction items as [|item rest IH]; intros tx t items' Hr.
  - cbn in Hr. by simplify_eq.
  - loop_step Hr tx1 p rest' E1 E2. rewrite (IH _ _ _ E2).
    apply reserve_Done in E1 as (Hfind & _ & ->). cbn.
    destruct (decide (Item_ProductID item = k)) as [<-|Hne].
    + by rewrite lookup_insert_eq, Hfind.
    + by rewrite lookup_insert_ne.
Qed.

(** X9.  The three order handlers write the stock column only: whatever
    the call and its answer, the products table has the same keys
    afterwards, and every product its name and price. *)
Theorem order_handlers_write_stock_only (db : DB) (k : N) :
  (∀ order, (λ p, (Product_Name p, Product_Price p)) <$> products (CreateOrder db order).1 !! k
            = (λ p, (Product_Name p, Product_Price p)) <$> products db !! k) ∧
  (∀ id status, products (UpdateOrderStatus db id status).1 !! k = products db !! k) ∧
  (∀ id, (λ p, (Product_Name p, Product_Price p)) <$> products (CancelOrder db id).1 !! k
         = (λ p, (Product_Name p, Product_Price p)) <$> products db !! k).
Proof.
  split; [|split].
  - intros order. rewrite CreateOrder_unfold.
    destruct (reserve_items db (Order_Items order) 0%float) as [[[tx items] total]|r] eqn:E;
      [|done].
    destruct (create_order tx _) as [[tx' o']|] eqn:Ec; [|done].
    apply create_order_Some in Ec as (Hps & _). cbn. rewrite Hps.
    by eapply reserve_items_name_price.
  - intros id status. by rewrite UpdateOrderStatus_products.
  - intros id.
    destruct (CancelOrder_products db id) as [-> | (order & _ & Hr)]; [done|].
    rewrite (restore_items_Some _ _ _ Hr k).
    by destruct (products db !! k) as [p|].
Qed.

(** ** Paging *)

Lemma clamp_limit_range (limit : Z) : 1 ≤ clamp_limit limit ≤ 100.
Proof.
  unfold clamp_limit.
  destruct (Z.ltb_spec limit 1), (Z.ltb_spec 100 limit); cbn; lia.
Qed.

Lemma total_pages_div (total limit : Z) :
  0 ≤ total ≤ int_max - 100 →
  1 ≤ limit ≤ 100 →
  total_pages total limit = (total + limit - 1) / limit.
Proof.
  intros Ht Hl. unfold total_pages.
  assert (Hq : 0 ≤ (total + limit - 1) / limit ≤ total + limit - 1).
  { split; [apply Z.div_pos; lia|]. apply Z.div_le_upper_bound; nia. }
  rewrite (wrap_int_id (total + limit)) by (unfold is_int, int_min, int_max in *; lia).
  rewrite (wrap_int_id (total + limit - 1)) by (unfold is_int, int_min, int_max in *; lia).
  rewrite Z.quot_div_nonneg by lia.
  apply wrap_int_id. unfold is_int, int_min, int_max in *. lia.
Qed.

Lemma ceiling_bounds (total limit : Z) :
  0 ≤ total → 1 ≤ limit →
  total ≤ (total + limit - 1) / limit * limit < total + limit.
Proof.
  intros Ht Hl.
  pose proof (Z.div_mod (total + limit - 1) limit ltac:(lia)) as Hdm.
  pose proof (Z.mod_pos_bound (total + limit - 1) limit ltac:(lia)) as Hm.
  nia.
Qed.

(** X10.  For a row count that fits ([0 ≤ total ≤ maxint - 100]) and any
    raw [page] and [limit] parameters, the [pagination] object reports a
    page of at least 1 (the requested one if it is at least 1), between
    1 and 100 items per page (the requested number if it is in that
    range, 10 otherwise, also when more than 100 are asked for), and as
    [total_pages] the least number of such pages that hold [total] rows. *)
Theorem pagination_reports_ceiling (page limit total : Z) :
  0 ≤ total ≤ int_max - 100 →
  ∃ p l n,
    pagination page limit total =
      [("current_page", JInt p); ("total_items", JInt total);
       ("items_per_page", JInt l); ("total_pages", JInt n)] ∧
    1 ≤ p ∧ (1 ≤ page → p = page) ∧
    1 ≤ l ≤ 100 ∧ (1 ≤ limit ≤ 100 → l = limit) ∧ (¬ 1 ≤ limit ≤ 100 → l = 10) ∧
    total ≤ n * l < total + l.
Proof.
  intros Ht.
  exists (clamp_page page), (clamp_limit limit), (total_pages total (clamp_limit limit)).
  pose proof (clamp_limit_range limit) as Hl.
  split; [reflexivity|].
  rewrite (total_pages_div _ _ Ht Hl).
  split_and!; try lia.
  - unfold clamp_page. destruct (Z.ltb_spec page 1); lia.
  - unfold clamp_page. destruct (Z.ltb_spec page 1); lia.
  - unfold clamp_limit. destruct (Z.ltb_spec limit 1), (Z.ltb_spec 100 limit); cbn; lia.
  - unfold clamp_limit. destruct (Z.ltb_spec limit 1), (Z.ltb_spec 100 limit); cbn; lia.
  - apply ceiling_bounds; lia.
  - apply ceiling_bounds; lia.
Qed.

Lemma pagination_reports_ceiling_witness :
  ∃ p l n,
    pagination 0 101 25 =
      [("current_page", JInt p); ("total_items", JInt 25);
       ("items_per_page", JInt l); ("total_pages", JInt n)] ∧
    1 ≤ p ∧ (1 ≤ 0 → p = 0) ∧
    1 ≤ l ≤ 100 ∧ (1 ≤ 101 ≤ 100 → l = 101) ∧ (¬ 1 ≤ 101 ≤ 100 → l = 10) ∧
    25 ≤ n * l < 25 + l.
Proof. apply (pagination_reports_ceiling 0 101 25). unfold int_max. lia. Defined.

Lemma offset_exact (page limit : Z) :
  1 ≤ page → 1 ≤ limit → (page - 1) * limit ≤ int_max →
  offset page limit = (page - 1) * limit.
Proof.
  intros Hp Hl Hfit. unfold offset.
  rewrite (wrap_int_id (page - 1)) by (unfold is_int, int_min, int_max in *; nia).
  apply wrap_int_id. unfold is_int, int_min, int_max in *. nia.
Qed.

(** X11.  The pages are a partition of the rows.  With the handler's
    items per page and a result of [rows] that fits: row [i] of the
    result is on page [i / limit + 1], which is one of the pages 1 ..
    [total_pages], at place [i mod limit]; and whatever a page [p ≥ 1]
    (whose offset fits an [int]) shows at place [j] is row
    [(p - 1) * limit + j] of the result, so [p] is at most [total_pages]:
    later pages are empty, and no row is on two pages. *)
Theorem pages_partition_rows {A : Type} (rows : list A) (limit0 : Z) :
  Z.of_nat (length rows) ≤ int_max - 100 →
  (∀ (i : nat) (x : A),
     rows !! i = Some x →
     1 ≤ Z.of_nat i / clamp_limit limit0 + 1
       ≤ total_pages (Z.of_nat (length rows)) (clamp_limit limit0) ∧
     ∃ w, page_rows rows (clamp_page (Z.of_nat i / clamp_limit limit0 + 1))
            (clamp_limit limit0) = Some w ∧
          w !! Z.to_nat (Z.of_nat i mod clamp_limit limit0) = Some x) ∧
  (∀ (p : Z) (w : list A) (j : nat) (x : A),
     1 ≤ p → (p - 1) * clamp_limit limit0 ≤ int_max →
     page_rows rows p (clamp_limit limit0) = Some w →
     w !! j = Some x →
     p ≤ total_pages (Z.of_nat (length rows)) (clamp_limit limit0) ∧
     rows !! (Z.to_nat ((p - 1) * clamp_limit limit0) + j)%nat = Some x).
Proof.
  intros Hfit.
  pose proof (clamp_limit_range limit0) as Hl.
  set (l := clamp_limit limit0) in *.
  assert (Ht : 0 ≤ Z.of_nat (length rows) ≤ int_max - 100) by lia.
  rewrite (total_pages_div _ _ Ht Hl).
  pose proof (ceiling_bounds (Z.of_nat (length rows)) l ltac:(lia) ltac:(lia)) as Hceil.
  split.
  - intros i x Hi.
    pose proof (lookup_lt_Some _ _ _ Hi) as Hlt.
    pose proof (Z.div_mod (Z.of_nat i) l ltac:(lia)) as Hdm.
    pose proof (Z.mod_pos_bound (Z.of_nat i) l ltac:(lia)) as Hm.
    assert (Hd : 0 ≤ Z.of_nat i / l) by (apply Z.div_pos; lia).
    split; [split; [lia|]|].
    + assert (Z.of_nat i / l * l < (Z.of_nat (length rows) + l - 1) / l * l) by nia.
      nia.
    + unfold clamp_page. destruct (Z.ltb_spec (Z.of_nat i / l + 1) 1) as [?|_]; [lia|].
      unfold page_rows.
      rewrite offset_exact by (unfold int_max in *; nia).
      replace (Z.of_nat i / l + 1 - 1) with (Z.of_nat i / l) by lia.
      destruct (Z.ltb_spec (Z.of_nat i / l * l) 0) as [?|_]; [nia|].
      destruct (Z.ltb_spec l 0) as [?|_]; [lia|]. cbn [orb].
      eexists. split; [reflexivity|].
      rewrite lookup_take_lt by lia. rewrite lookup_drop.
      replace (Z.to_nat (Z.of_nat i / l * l) + Z.to_nat (Z.of_nat i mod l))%nat with i by nia.
      exact Hi.
  - intros p w j x Hp Hoff Hpage Hj. unfold page_rows in Hpage.
    rewrite offset_exact in Hpage by lia.
    destruct (Z.ltb_spec ((p - 1) * l) 0) as [?|_]; [nia|].
    destruct (Z.ltb_spec l 0) as [?|_]; [lia|]. cbn [orb] in Hpage.
    simplify_eq.
    apply lookup_take_Some in Hj as [Hj Hjl]. rewrite lookup_drop in Hj.
    split; [|exact Hj].
    pose proof (lookup_lt_Some _ _ _ Hj) as Hlt. nia.
Qed.

Lemma pages_partition_rows_witness :
  1 ≤ Z.of_nat 12 / clamp_limit 5 + 1
    ≤ total_pages (Z.of_nat (length (seq 0 13))) (clamp_limit 5) ∧
  ∃ w, page_rows (seq 0 13) (clamp_page (Z.of_nat 12 / clamp_limit 5 + 1)) (clamp_limit 5)
         = Some w ∧
       w !! Z.to_nat (Z.of_nat 12 mod clamp_limit 5) = Some 12%nat.
Proof.
  refine (proj1 (pages_partition_rows (seq 0 13) 5 _) 12%nat 12%nat _).
  - unfold int_max. cbn. lia.
  - reflexivity.
Defined.

(** ** Writes to the stock from the product handlers *)

(** X12.  [UpdateStock] on an existing product, from stocks that are
    non-negative [int]s: a quantity of 0 and a quantity that is not an
    [int] are refused with 400 and nothing changes (the stock cannot be
    set to zero this way); a positive [int] becomes the stock and the
    stocks stay non-negative; a negative [int] is accepted as well and
    becomes the stock.  In no case are the orders, the other products
    or the name and price of the product touched. *)
Theorem UpdateStock_sets_any_nonzero_stock (db : DB) (id : N) (quantity : Z) (p : Product) :
  products db !! id = Some p →
  stock_ok (products db) →
  (quantity = 0 ∨ ¬ is_int quantity →
     UpdateStock db id quantity =
       (db, JSON StatusBadRequest (gin_H [("error", JStr "Invalid request body")]))) ∧
  (quantity ≠ 0 → is_int quantity →
     (UpdateStock db id quantity).2 = Status StatusOK ∧
     products (UpdateStock db id quantity).1 !! id = Some (set_Stock p quantity)) ∧
  (0 < quantity ≤ int_max → stock_ok (products (UpdateStock db id quantity).1)) ∧
  (int_min ≤ quantity < 0 → ¬ stock_ok (products (UpdateStock db id quantity).1)) ∧
  orders (UpdateStock db id quantity).1 = orders db ∧
  (∀ k, k ≠ id → products (UpdateStock db id quantity).1 !! k = products db !! k) ∧
  (λ q, (Product_Name q, Product_Price q)) <$> products (UpdateStock db id quantity).1 !! id
    = Some (Product_Name p, Product_Price p).
Proof.
  intros Hfind Hok. unfold UpdateStock.
  destruct (is_intb quantity) eqn:Hint; cbn [negb orb].
  - apply is_intb_spec in Hint. rewrite Hfind.
    destruct (Z.eqb_spec quantity 0) as [->|Hq]; cbn.
    + rewrite Hfind. split_and!; try done; lia.
    + split_and!; try done.
      * intros [?|?]; done.
      * intros _ _. by rewrite lookup_insert_eq.
      * intros Hpos. apply stock_ok_insert; [cbn; lia | done].
      * intros Hneg Hok'. specialize (Hok' id (set_Stock p quantity)).
        rewrite lookup_insert_eq in Hok'. specialize (Hok' eq_refl). cbn in Hok'. lia.
      * intros k Hk. by rewrite lookup_insert_ne.
      * by rewrite lookup_insert_eq.
  - assert (Hn : ¬ is_int quantity).
    { intros Hi. apply is_intb_spec in Hi. congruence. }
    cbn. rewrite Hfind. split_and!; try done.
    intros Hneg. destruct Hn. unfold is_int, int_min, int_max in *. lia.
Qed.

Lemma UpdateStock_sets_any_nonzero_stock_witness :
  (UpdateStock db0 1 (-3)).2 = Status StatusOK ∧
  products (UpdateStock db0 1 (-3)).1 !! 1%N = Some (set_Stock (sample_product 9.5%float 10) (-3)) ∧
  ¬ stock_ok (products (UpdateStock db0 1 (-3)).1).
Proof.
  pose proof (UpdateStock_sets_any_nonzero_stock db0 1 (-3) (sample_product 9.5%float 10))
    as Hw.
  destruct Hw as (_ & Hset & _ & Hneg & _).
  - reflexivity.
  - exact stock_ok_db0.
  - destruct Hset as [H1 H2]; [lia| unfold is_int, int_min, int_max; lia |].
    split; [exact H1|]. split; [exact H2|]. apply Hneg. unfold int_min. lia.
Defined.

(** X13.  After [UpdateStock] has set the stock of an existing product to
    [q > 0], a bound request for [n > 0] of it (one item, key left to
    the store) is stored exactly when [n ≤ q] and [price * n] fits the
    [decimal(10,2)] column, leaving [q - n]; with [n ≤ q] and a total
    that does not fit it is answered with 500 "Failed to create order";
    with [q < n] it is answered with 400 "Insufficient stock",
    available [q], requested [n]; in both the stock stays [q]. *)
Theorem order_after_restock (db : DB) (id user : N) (q n : Z) (p : Product) :
  products db !! id = Some p →
  0 < q ≤ int_max →
  0 < n →
  bindable (request user [(id, n)]) →
  (n ≤ q → is_Some (decimal_10_2 (quoted_total (products db) [mkOrderItem id n 0%float])) →
     code (CreateOrder (UpdateStock db id q).1 (request user [(id, n)])).2 = StatusCreated ∧
     products (CreateOrder (UpdateStock db id q).1 (request user [(id, n)])).1 !! id
       = Some (set_Stock p (q - n))) ∧
  (n ≤ q → decimal_10_2 (quoted_total (products db) [mkOrderItem id n 0%float]) = None →
     CreateOrder (UpdateStock db id q).1 (request user [(id, n)]) =
       ((UpdateStock db id q).1,
        JSON StatusInternalServerError (gin_H [("error", JStr "Failed to create order")]))) ∧
  (q < n →
     CreateOrder (UpdateStock db id q).1 (request user [(id, n)]) =
       ((UpdateStock db id q).1,
        JSON StatusBadRequest
          (gin_H [("error", JStr "Insufficient stock"); ("product_id", JInt (Z.of_N id));
                  ("available", JInt q); ("requested", JInt n)]))) ∧
  products (UpdateStock db id q).1 !! id = Some (set_Stock p q).
Proof.
  intros Hfind Hq Hn _.
  assert (Hu : (UpdateStock db id q).1 =
               set_products db (<[id := set_Stock p q]> (products db))).
  { unfold UpdateStock.
    assert (Hi : is_intb q = true)
      by (apply is_intb_spec; unfold is_int, int_min, int_max in *; lia).
    rewrite Hi, Hfind. cbn [negb orb].
    destruct (Z.eqb_spec q 0) as [?|_]; [lia|done]. }
  assert (Ht : quoted_total (products db) [mkOrderItem id n 0%float] =
               PrimFloat.add 0 (PrimFloat.mul (Product_Price p) (float64 n))).
  { unfold quoted_total, quoted. cbn [map Item_ProductID]. by rewrite Hfind. }
  rewrite Ht, Hu, CreateOrder_unfold. cbn [request Order_Items map].
  rewrite reserve_items_cons. unfold reserve.
  cbn [Item_ProductID Item_Quantity products set_products].
  rewrite lookup_insert_eq. cbn [Product_Stock set_Stock Product_Price].
  split_and!.
  - intros Hle [t Hfit]. destruct (Z.ltb_spec q n) as [?|_]; [lia|].
    rewrite wrap_int_id by (unfold is_int, int_min, int_max in *; lia).
    cbn [reserve_items mbind Outcome_bind]. unfold create_order, with_server_fields.
    cbn [Order_Total Order_ID]. change (Product_Price (set_Stock p q)) with (Product_Price p).
    rewrite Hfit. cbn. by rewrite lookup_insert_eq.
  - intros Hle Hfit. destruct (Z.ltb_spec q n) as [?|_]; [lia|].
    cbn [reserve_items mbind Outcome_bind]. unfold create_order, with_server_fields.
    cbn [Order_Total]. change (Product_Price (set_Stock p q)) with (Product_Price p).
    by rewrite Hfit.
  - intros Hlt. destruct (Z.ltb_spec q n) as [_|?]; [|lia]. reflexivity.
  - reflexivity.
Qed.

Lemma order_after_restock_witness :
  code (CreateOrder (UpdateStock db0 2 50).1 (request 1 [(2%N, 20)])).2 = StatusCreated ∧
  products (CreateOrder (UpdateStock db0 2 50).1 (request 1 [(2%N, 20)])).1 !! 2%N
    = Some (set_Stock (sample_product 5%float 4) (50 - 20)).
Proof.
  refine (proj1 (order_after_restock db0 2 1 50 20 (sample_product 5%float 4) _ _ _ _) _ _).
  - reflexivity.
  - unfold int_max. lia.
  - lia.
  - unfold bindable, is_uint, is_int, int_min, int_max. cbn.
    split; [lia|]. split; [lia|]. repeat constructor; cbn; lia.
  - lia.
  - eexists. vm_compute. reflexivity.
Defined.

(** X14.  [DeleteProduct] on an existing product is answered with 204 and
    takes only that product away: the orders and the other products are
    as before.  From then on a second [DeleteProduct] is answered with
    404, no request with an item for the product is ever stored
    ([CreateOrder] leaves the store as it is), and no [CancelOrder]
    brings the product back. *)
Theorem deleted_product_is_gone (db : DB) (id : N) (p : Product) :
  products db !! id = Some p →
  (DeleteProduct db id).2 = Status StatusNoContent ∧
  orders (DeleteProduct db id).1 = orders db ∧
  (∀ k, k ≠ id → products (DeleteProduct db id).1 !! k = products db !! k) ∧
  DeleteProduct (DeleteProduct db id).1 id =
    ((DeleteProduct db id).1,
     JSON StatusNotFound (gin_H [("error", JStr "Product not found")])) ∧
  (∀ order it, In it (Order_Items order) → Item_ProductID it = id →
     (CreateOrder (DeleteProduct db id).1 order).1 = (DeleteProduct db id).1 ∧
     code (CreateOrder (DeleteProduct db id).1 order).2 ≠ StatusCreated) ∧
  (∀ oid, products (CancelOrder (DeleteProduct db id).1 oid).1 !! id = None).
Proof.
  intros Hfind.
  assert (Hd : DeleteProduct db id =
               (set_products db (delete id (products db)), Status StatusNoContent)).
  { unfold DeleteProduct. by rewrite Hfind. }
  rewrite Hd. cbn [fst snd].
  assert (Hgone : products (set_products db (delete id (products db))) !! id = None).
  { cbn. apply lookup_delete_eq. }
  split_and!; try done.
  - intros k Hk. cbn. by rewrite lookup_delete_ne.
  - unfold DeleteProduct. by rewrite Hgone.
  - intros order it Hin Hit.
    assert (Hcode : code (CreateOrder (set_products db (delete id (products db))) order).2
                    ≠ StatusCreated).
    { intros Hc.
      destruct (CreateOrder (set_products db (delete id (products db))) order)
        as [db' [c b]] eqn:Hcr.
      cbn in Hc. subst c.
      assert (∃ o, b = JOrder o) as [o ->].
      { revert Hcr. rewrite CreateOrder_unfold.
        destruct (reserve_items _ (Order_Items order) 0%float)
          as [[[tx items] total]|r] eqn:E.
        - destruct (create_order tx _) as [[tx' o']|]; [|done].
          unfold JSON. intros ?; simplify_eq. eauto.
        - intros ?; simplify_eq. apply reserve_items_Abort in E. cbn in E. by destruct E. }
      apply CreateOrder_created_order in Hcr as (_ & _ & _ & Hitems & _).
      destruct (Forall2_In_l _ _ _ _ Hitems Hin) as (it' & _ & _ & p' & Hp' & _).
      rewrite Hit in Hp'. by rewrite Hgone in Hp'. }
    split; [by apply CreateOrder_rollback | done].
  - intros oid.
    destruct (CancelOrder_products (set_products db (delete id (products db))) oid)
      as [-> | (order & _ & Hr)]; [done|].
    by rewrite (restore_items_Some _ _ _ Hr id), Hgone.
Qed.

Lemma deleted_product_is_gone_witness :
  (DeleteProduct db1 1).2 = Status StatusNoContent ∧
  products (CancelOrder (DeleteProduct db1 1).1 1).1 !! 1%N = None.
Proof.
  pose proof (deleted_product_is_gone db1 1 (sample_product 9.5%float 7)) as Hw.
  destruct Hw as (H1 & _ & _ & _ & _ & H2).
  - vm_compute. reflexivity.
  - split; [exact H1 | exact (H2 1%N)].
Defined.

(** ** The cart *)


Lemma dispatch_all_snoc (state : Cart.CartState) (actions : list Cart.CartAction)
    (action : Cart.CartAction) :
  Cart.dispatch_all state (actions ++ [action])
  = Cart.cartReducer (Cart.dispatch_all state actions) action.
Proof. unfold Cart.dispatch_all. by rewrite fold_left_app. Qed.

Lemma distinct_lines_map (f : Cart.CartItem → Cart.CartItem) (l : list Cart.CartItem) :
  (∀ x, Cart.product (f x) = Cart.product x) →
  distinct_lines l → distinct_lines (map f l).
Proof.
  intros Hf. induction l as [|x l IH]; [done|].
  cbn [distinct_lines map]. intros [Hx Hl]. split; [|by apply IH].
  rewrite Hf. apply Forall_map. eapply Forall_impl; [exact Hx|].
  intros y Hy. cbn. by rewrite Hf.
Qed.

Lemma distinct_lines_filter (g : Cart.CartItem → bool) (l : list Cart.CartItem) :
  distinct_lines l → distinct_lines (List.filter g l).
Proof.
  induction l as [|x l IH]; [done|].
  cbn [distinct_lines List.filter]. intros [Hx Hl].
  destruct (g x); [|by apply IH].
  cbn [distinct_lines]. split; [|by apply IH].
  apply Forall_forall. intros y Hy%list_elem_of_In%filter_In.
  rewrite Forall_forall in Hx. apply Hx. apply list_elem_of_In. tauto.
Qed.

Lemma distinct_lines_snoc (l : list Cart.CartItem) (new : Cart.CartItem) :
  Forall (λ x, PrimFloat.eqb (Cart.id (Cart.product x)) (Cart.id (Cart.product new)) = false) l →
  distinct_lines l → distinct_lines (l ++ [new]).
Proof.
  induction l as [|x l IH]; [by cbn|].
  intros [Hx Hnew]%Forall_cons [Hxl Hl]. cbn [app distinct_lines]. split; [|by apply IH].
  apply Forall_app. split; [done|]. by constructor.
Qed.

Lemma cartReducer_distinct (state : Cart.CartState) (action : Cart.CartAction) :
  distinct_lines (Cart.items state) →
  distinct_lines (Cart.items (Cart.cartReducer state action)).
Proof.
  intros Hd. destruct action as [product0 quantity0 | pid | pid quantity0 |];
    cbn [Cart.cartReducer].
  - destruct (find _ _) eqn:Hf; cbn [Cart.items].
    + apply distinct_lines_map; [|done]. intros x. by destruct (PrimFloat.eqb _ _).
    + apply distinct_lines_snoc; [|done].
      apply Forall_forall. intros x Hx%list_elem_of_In.
      exact (find_none _ _ Hf x Hx).
  - by apply distinct_lines_filter.
  - cbn [Cart.items]. apply distinct_lines_map; [|done].
    intros x. by destruct (PrimFloat.eqb _ _).
  - done.
Qed.

(** X15.  Whatever is dispatched to the cart, starting from the empty
    cart, it never holds two lines for the same product (no [id] of a
    line is [===] the [id] of a later one): adding a product that is in
    the cart changes its line instead of adding one. *)
Theorem cart_has_one_line_per_product (actions : list Cart.CartAction) :
  distinct_lines (Cart.items (Cart.dispatch_all Cart.initial actions)).
Proof.
  induction actions as [|action actions IH] using rev_ind; [done|].
  rewrite dispatch_all_snoc. by apply cartReducer_distinct.
Qed.



